(** * Verification of the scoring / fetching core of GitAudit ([src/app.py])

    Python values flowing through [app.py] are JSON-shaped (decoded API
    responses, dicts built by the enrichment loop), so they are modelled by
    one inductive type [json].  Dicts are association lists kept free of
    duplicate keys by [dict_set] (Python dict semantics: overwrite in place,
    append new keys at the end).

    Numbers are modelled exactly as rationals [Q]: Python ints exactly, and
    Python floats (true division, the decimal weights) as the exact decimal
    value they approximate.

    Strings are [String.string]; characters are bytes (text is UTF-8).

    Raising is explicit: [res A] is either [Ok a] or [Exc e]. *)

From Stdlib Require Import String Ascii List ZArith QArith Qround Lia Lqa Bool.
Import ListNotations.
Open Scope string_scope.

(** ** Python values *)

Set Warnings "-register-all".

Inductive json : Type :=
| JNull : json
| JBool : bool -> json
| JNum : Q -> json
| JStr : string -> json
| JArr : list json -> json
| JObj : list (string * json) -> json.

(** Exceptions that the modelled code can raise. *)
Inductive exc : Type :=
| KeyError | TypeError | ValueError | AttributeError
| RequestException | JSONDecodeError.

Inductive res (A : Type) : Type :=
| Ok : A -> res A
| Exc : exc -> res A.
Arguments Ok {A} _.
Arguments Exc {A} _.

Definition res_bind {A B} (r : res A) (k : A -> res B) : res B :=
  match r with Ok a => k a | Exc e => Exc e end.

Notation "'let?' x := c 'in' k" := (res_bind c (fun x => k))
  (at level 200, x name, c at level 100, k at level 200).

(** Python truthiness ([bool(x)]). *)
Definition truthy (v : json) : bool :=
  match v with
  | JNull => false
  | JBool b => b
  | JNum q => negb (Qeq_bool q 0)
  | JStr s => negb (String.eqb s EmptyString)
  | JArr l => negb (Nat.eqb (length l) 0)
  | JObj l => negb (Nat.eqb (length l) 0)
  end.

(** [d.get(k)] on a dict: the value stored under [k], if any. *)
Fixpoint assoc_get (k : string) (d : list (string * json)) : option json :=
  match d with
  | [] => None
  | (k', v) :: d' => if String.eqb k k' then Some v else assoc_get k d'
  end.

(** [d[k] = v]: overwrite in place, or append a new key. *)
Fixpoint dict_set (k : string) (v : json) (d : list (string * json))
  : list (string * json) :=
  match d with
  | [] => [(k, v)]
  | (k', v') :: d' =>
      if String.eqb k k' then (k', v) :: d' else (k', v') :: dict_set k v d'
  end.

(** [x.get(k, default)]: [AttributeError] unless [x] is a dict. *)
Definition py_get (x : json) (k : string) (default : json) : res json :=
  match x with
  | JObj d => Ok (match assoc_get k d with Some v => v | None => default end)
  | _ => Exc AttributeError
  end.

(** [x[k]] with a string key. *)
Definition py_index (x : json) (k : string) : res json :=
  match x with
  | JObj d => match assoc_get k d with Some v => Ok v | None => Exc KeyError end
  | _ => Exc TypeError
  end.

(** [x[k] = v] on a dict. *)
Definition py_setitem (x : json) (k : string) (v : json) : res json :=
  match x with
  | JObj d => Ok (JObj (dict_set k v d))
  | _ => Exc TypeError
  end.

Definition qltb (a b : Q) : bool := negb (Qle_bool b a).

(** Numeric view of a value in an arithmetic context: [bool] is an [int]. *)
Definition py_num (v : json) : res Q :=
  match v with
  | JNum q => Ok q
  | JBool b => Ok (if b then 1 else 0)
  | _ => Exc TypeError
  end.

(** [x > 0]. *)
Definition py_gt0 (v : json) : res bool :=
  let? q := py_num v in Ok (qltb 0 q).

(** [x < c] for a numeric constant [c]. *)
Definition py_lt (v : json) (c : Q) : res bool :=
  let? q := py_num v in Ok (qltb q c).

(** [x == 0]: never raises; only numbers (and [False]) equal [0]. *)
Definition py_eq0 (v : json) : bool :=
  match v with
  | JNum q => Qeq_bool q 0
  | JBool b => negb b
  | _ => false
  end.

(** [min(a, b)] on numbers: keeps [a] unless [b < a]. *)
Definition py_min (a b : Q) : Q := if qltb b a then b else a.

(** ** Per-repository sub-scores (app.py lines 99-134) *)

(** [calculate_documentation_score(repo)] *)
Definition calculate_documentation_score (repo : json) : res Q :=
  let? readme := py_get repo "readme_exists" (JBool false) in
  let? descr := py_get repo "description" JNull in
  let? home := py_get repo "homepage" JNull in
  let? wiki := py_get repo "has_wiki" JNull in
  let? pages := py_get repo "has_pages" JNull in
  let score := 0%Q in
  let score := if truthy readme then score + 40 else score in
  let score := if truthy descr then score + 20 else score in
  let score := if truthy home then score + 10 else score in
  let score := if truthy wiki then score + 15 else score in
  let score := if truthy pages then score + 15 else score in
  Ok (py_min score 100).

(** [calculate_code_quality_score(repo)] *)
Definition calculate_code_quality_score (repo : json) : res Q :=
  let? lc := py_get repo "languages_count" (JNum 0) in
  let? b1 := py_gt0 lc in
  let score := if b1 then 20 else 0 in
  let? iss := py_get repo "has_issues" (JBool false) in
  let score := if truthy iss then score + 15 else score in
  let? prj := py_get repo "has_projects" (JBool false) in
  let score := if truthy prj then score + 15 else score in
  let? sz := py_get repo "size" (JNum 0) in
  let? b4 := py_gt0 sz in
  let score := if b4 then score + 25 else score in
  let? st := py_get repo "stargazers_count" (JNum 0) in
  let? b5 := py_gt0 st in
  let score := if b5 then score + 25 else score in
  Ok (py_min score 100).

(** *** [datetime.strptime(s, '%Y-%m-%dT%H:%M:%SZ')]

    CPython's [_strptime] turns the format into a regular expression,
    compiled with [re.IGNORECASE], whose directives are
      %Y [\d\d\d\d]
      %m [1[0-2]|0[1-9]|[1-9]]
      %d [3[01]|[12]\d|0[1-9]|[1-9]| [1-9]]
      %H [2[0-3]|[0-1]\d|\d]
      %M [[0-5]\d|\d]
      %S [6[0-1]|[0-5]\d|\d]
    takes the first match in backtracking order, raises [ValueError] when
    input is left over, and then builds [datetime(Y, m, d, H, M, S)], which
    raises [ValueError] on an impossible date or a second of 60 or 61.
    The matcher below returns all matches in backtracking order (list of
    successes) and takes the first one.  Digits are ASCII digits.  *)

Definition cls := ascii -> bool.

Definition in_range (lo hi : ascii) : cls :=
  fun c => (Nat.leb (nat_of_ascii lo) (nat_of_ascii c) &&
            Nat.leb (nat_of_ascii c) (nat_of_ascii hi))%bool.

Definition digit : cls := in_range "0" "9".
Definition exactly (c0 : ascii) : cls := fun c => Ascii.eqb c c0.

(** One alternative of a group: a fixed sequence of character classes. *)
Fixpoint match_alt (a : list cls) (s : list ascii)
  : option (list ascii * list ascii) :=
  match a, s with
  | [], _ => Some ([], s)
  | p :: a', c :: s' =>
      if p c then
        match match_alt a' s' with
        | Some (m, r) => Some (c :: m, r)
        | None => None
        end
      else None
  | _ :: _, [] => None
  end.

Inductive piece : Type :=
| PLit : ascii -> piece              (** literal, matched case-insensitively *)
| PGrp : list (list cls) -> piece.   (** capturing group with alternatives *)

Definition lower (c : ascii) : ascii :=
  if in_range "A" "Z" c then ascii_of_nat (nat_of_ascii c + 32) else c.

(** All matches of a piece sequence at the start of [s], in the order the
    backtracking regex engine tries them: captured groups and the rest. *)
Fixpoint match_pieces (ps : list piece) (s : list ascii)
  : list (list (list ascii) * list ascii) :=
  match ps with
  | [] => [([], s)]
  | PLit l :: ps' =>
      match s with
      | c :: s' =>
          if Ascii.eqb (lower c) (lower l) then match_pieces ps' s' else []
      | [] => []
      end
  | PGrp alts :: ps' =>
      flat_map (fun a =>
        match match_alt a s with
        | Some (m, r) =>
            map (fun '(caps, r') => (m :: caps, r')) (match_pieces ps' r)
        | None => []
        end) alts
  end.

Definition grp_Y : piece := PGrp [[digit; digit; digit; digit]].
Definition grp_m : piece :=
  PGrp [[exactly "1"; in_range "0" "2"]; [exactly "0"; in_range "1" "9"];
        [in_range "1" "9"]].
Definition grp_d : piece :=
  PGrp [[exactly "3"; in_range "0" "1"]; [in_range "1" "2"; digit];
        [exactly "0"; in_range "1" "9"]; [in_range "1" "9"];
        [exactly " "; in_range "1" "9"]].
Definition grp_H : piece :=
  PGrp [[exactly "2"; in_range "0" "3"]; [in_range "0" "1"; digit]; [digit]].
Definition grp_M : piece := PGrp [[in_range "0" "5"; digit]; [digit]].
Definition grp_S : piece :=
  PGrp [[exactly "6"; in_range "0" "1"]; [in_range "0" "5"; digit]; [digit]].

(** The regex of ['%Y-%m-%dT%H:%M:%SZ']. *)
Definition pushed_at_format : list piece :=
  [grp_Y; PLit "-"; grp_m; PLit "-"; grp_d; PLit "T";
   grp_H; PLit ":"; grp_M; PLit ":"; grp_S; PLit "Z"].

(** [int(s)] on a captured group (the day group may start with a blank,
    which [int] strips). *)
Definition int_of_digits (s : list ascii) : Z :=
  fold_left (fun acc c =>
    if digit c then (acc * 10 + Z.of_nat (nat_of_ascii c - 48))%Z else acc)
    s 0%Z.

Definition is_leap (y : Z) : bool :=
  (Z.eqb (Z.modulo y 4) 0 && (negb (Z.eqb (Z.modulo y 100) 0)
                               || Z.eqb (Z.modulo y 400) 0))%bool.

Definition days_in_month (y m : Z) : Z :=
  if Z.eqb m 2 then (if is_leap y then 29 else 28)
  else if (Z.eqb m 4 || Z.eqb m 6 || Z.eqb m 9 || Z.eqb m 11)%bool then 30
  else 31.

(** [date(y, m, d).toordinal()] for a valid date. *)
Definition days_before_year (y : Z) : Z :=
  let y1 := (y - 1)%Z in (y1 * 365 + y1 / 4 - y1 / 100 + y1 / 400)%Z.

Fixpoint days_before_month_aux (y : Z) (k : nat) : Z :=
  match k with
  | O => 0%Z
  | S k' => (days_before_month_aux y k' + days_in_month y (Z.of_nat k))%Z
  end.

Definition toordinal (y m d : Z) : Z :=
  (days_before_year y + days_before_month_aux y (Z.to_nat (m - 1)) + d)%Z.

(** A naive [datetime] is modelled as a count of microseconds:
    [toordinal()] of its date times a day, plus its time of day.
    Differences of such counts are exact [timedelta]s. *)
Definition usec_per_day : Z := 86400000000%Z.

Definition mk_datetime (y m d hh mi ss : Z) : res Z :=
  if (Z.leb 1 y && Z.leb 1 m && Z.leb m 12 && Z.leb 1 d
      && Z.leb d (days_in_month y m) && Z.leb hh 23 && Z.leb mi 59
      && Z.leb ss 59)%bool
  then Ok (toordinal y m d * usec_per_day
           + ((hh * 60 + mi) * 60 + ss) * 1000000)%Z
  else Exc ValueError.

Definition strptime_parts (s : string) : res (list Z) :=
  match match_pieces pushed_at_format (list_ascii_of_string s) with
  | (caps, []) :: _ => Ok (map int_of_digits caps)
  | (_, _ :: _) :: _ => Exc ValueError   (* unconverted data remains *)
  | [] => Exc ValueError                 (* does not match format *)
  end.

(** [datetime.strptime(v, '%Y-%m-%dT%H:%M:%SZ')]; [TypeError] on a
    non-string argument. *)
Definition strptime_github (v : json) : res Z :=
  match v with
  | JStr s =>
      let? parts := strptime_parts s in
      match parts with
      | [y; m; d; hh; mi; ss] => mk_datetime y m d hh mi ss
      | _ => Exc ValueError
      end
  | _ => Exc TypeError
  end.

(** [(a - b).days] for naive datetimes: floor division of the difference. *)
Definition timedelta_days (a b : Z) : Z := ((a - b) / usec_per_day)%Z.

(** ** The outside world and the effect monad

    Every URL requested by the fetcher is one of the shapes below; the
    f-string that builds it is a function of the fields kept here, so a
    network answering by URL string is a network answering by [url]. *)
Inductive url : Type :=
| UUser : string -> url                  (** /users/{username} *)
| URepos : string -> Z -> url            (** /users/{username}/repos?...&page={page} *)
| UReadme : json -> url                  (** /repos/{full_name}/readme *)
| ULanguages : json -> url               (** repo['languages_url'] *)
| UCommitActivity : json -> url          (** /repos/{full_name}/stats/commit_activity *)
| UOrgs : string -> url.                 (** /users/{username}/orgs *)

(** Outcome of [requests.get]: it raises, or it answers with a status code
    and a body, [None] when the body is not valid JSON (then
    [response.json()] raises). *)
Inductive response : Type :=
| RRaise : response
| RResp : Z -> option json -> response.

Record World : Type := {
  github_token : option string;              (** os.getenv('GITHUB_TOKEN') *)
  net : url -> response;                     (** requests.get *)
  clock : nat -> Z;                          (** datetime.now(), at its n-th call *)
  b64_utf8_prefix : string -> option string  (** b64decode(c).decode('utf-8')[:500],
                                                 None where it raises *)
}.

Record State : Type := { requested : list url; ticks : nat }.

Definition init_state : State := {| requested := []; ticks := 0 |}.

(** Reader (world) + state + exceptions. *)
Definition M (A : Type) : Type := World -> State -> State * res A.

Definition ret {A} (a : A) : M A := fun _ s => (s, Ok a).

Definition bind {A B} (m : M A) (k : A -> M B) : M B :=
  fun w s => match m w s with
             | (s', Ok a) => k a w s'
             | (s', Exc e) => (s', Exc e)
             end.

Notation "x <- m ;; k" := (bind m (fun x => k))
  (at level 61, m at next level, right associativity).

Notation "' p <- m ;; k" := (bind m (fun x => match x with p => k end))
  (at level 61, p pattern, m at next level, right associativity).

Definition lift {A} (r : res A) : M A := fun _ s => (s, r).

Definition raise {A} (e : exc) : M A := lift (Exc e).

(** [try: m except: h] (bare [except] and [except Exception] alike). *)
Definition try_except {A} (m : M A) (h : M A) : M A :=
  fun w s => match m w s with
             | (s', Ok a) => (s', Ok a)
             | (s', Exc _) => h w s'
             end.

(** [requests.get(u)]: logs the request, raises on a transport failure. *)
Definition http_get (u : url) : M (Z * option json) :=
  fun w s =>
    let s' := {| requested := requested s ++ [u]; ticks := ticks s |} in
    match net w u with
    | RRaise => (s', Exc RequestException)
    | RResp code body => (s', Ok (code, body))
    end.

(** [response.json()] *)
Definition resp_json (body : option json) : res json :=
  match body with Some v => Ok v | None => Exc JSONDecodeError end.

(** [datetime.now()] *)
Definition datetime_now : M Z :=
  fun w s => ({| requested := requested s; ticks := S (ticks s) |},
              Ok (clock w (ticks s))).

Definition ask_world : M World := fun w s => (s, Ok w).

(** [calculate_activity_score(repo)], once the two datetimes are known. *)
Definition activity_score_from (pushed_at now : Z) (repo : json) : res Q :=
  let days_since_update := timedelta_days now pushed_at in
  let score : Q :=
    if Z.ltb days_since_update 7 then 40
    else if Z.ltb days_since_update 30 then 30
    else if Z.ltb days_since_update 90 then 20
    else 10 in
  let? oi := py_get repo "open_issues_count" (JNum 0) in
  let? b1 := py_gt0 oi in
  let score := if b1 then score + 20 else score in
  let? fk := py_get repo "forks_count" (JNum 0) in
  let? b2 := py_gt0 fk in
  let score := if b2 then score + 20 else score in
  let? wt := py_get repo "watchers_count" (JNum 0) in
  let? b3 := py_gt0 wt in
  let score := if b3 then score + 20 else score in
  Ok (py_min score 100).

(** [calculate_activity_score(repo)] (app.py lines 119-134): parses
    [pushed_at] (default ['2000-01-01']), then reads the clock. *)
Definition calculate_activity_score (repo : json) : M Q :=
  pv <- lift (py_get repo "pushed_at" (JStr "2000-01-01")) ;;
  pushed_at <- lift (strptime_github pv) ;;
  now <- datetime_now ;;
  lift (activity_score_from pushed_at now repo).

(** ** Data fetcher (app.py lines 136-221) *)

(** [len(x)] *)
Definition py_len (v : json) : res nat :=
  match v with
  | JStr s => Ok (String.length s)
  | JArr l => Ok (length l)
  | JObj d => Ok (length d)
  | _ => Exc TypeError
  end.

(** The items [list.extend] / [for x in v] iterate over: list elements,
    dict keys, string characters; [TypeError] for anything else. *)
Definition py_iter (v : json) : res (list json) :=
  match v with
  | JArr l => Ok l
  | JObj d => Ok (map (fun '(k, _) => JStr k) d)
  | JStr s => Ok (map (fun c => JStr (String c EmptyString)) (list_ascii_of_string s))
  | _ => Exc TypeError
  end.

(** [get_readme_content(repo_full_name, headers)] *)
Definition get_readme_content (repo_full_name : json) : M (option string) :=
  try_except
    ('(code, body) <- http_get (UReadme repo_full_name) ;;
     if Z.eqb code 200 then
       j <- lift (resp_json body) ;;
       content <- lift (py_get j "content" (JStr EmptyString)) ;;
       match content with
       | JStr c =>
           w <- ask_world ;;
           match b64_utf8_prefix w c with
           | Some text => ret (Some text)
           | None => raise ValueError
           end
       | _ => raise TypeError
       end
     else ret None)
    (ret None).

(** [get_commit_activity(repo_full_name, headers)]; Python's [None] is
    [JNull]. *)
Definition get_commit_activity (repo_full_name : json) : M json :=
  try_except
    ('(code, body) <- http_get (UCommitActivity repo_full_name) ;;
     if Z.eqb code 200 then lift (resp_json body) else ret JNull)
    (ret JNull).

(** The pagination loop [while len(repos) < 50: ...].  Each iteration
    that does not [break] adds at least one item, so 50 rounds of fuel are
    never exhausted (lemma [fetch_pages_fuel] below). *)
Fixpoint fetch_pages (username : string) (fuel : nat) (page : Z)
    (repos : list json) : M (list json) :=
  if Nat.ltb (length repos) 50 then
    match fuel with
    | O => ret repos
    | S fuel' =>
        '(code, body) <- http_get (URepos username page) ;;
        if negb (Z.eqb code 200) then ret repos
        else
          page_repos <- lift (resp_json body) ;;
          if negb (truthy page_repos) then ret repos
          else
            items <- lift (py_iter page_repos) ;;
            fetch_pages username fuel' (page + 1) (repos ++ items)
    end
  else ret repos.

Definition opt_str (o : option string) : json :=
  match o with Some t => JStr t | None => JNull end.

(** The body of [for repo in repos:] in the enhancement loop. *)
Definition enhance_repo (repo : json) : M json :=
  repo_full_name <- lift (py_index repo "full_name") ;;
  readme <- get_readme_content repo_full_name ;;
  repo <- lift (py_setitem repo "readme_exists"
                  (JBool (match readme with Some _ => true | None => false end))) ;;
  repo <- lift (py_setitem repo "readme_preview" (opt_str readme)) ;;
  lang_url <- lift (py_index repo "languages_url") ;;
  '(code, body) <- http_get (ULanguages lang_url) ;;
  langs <- (if Z.eqb code 200 then lift (resp_json body) else ret (JObj [])) ;;
  repo <- lift (py_setitem repo "languages" langs) ;;
  n <- lift (py_len langs) ;;
  repo <- lift (py_setitem repo "languages_count" (JNum (Z.of_nat n # 1))) ;;
  commits <- get_commit_activity repo_full_name ;;
  repo <- lift (py_setitem repo "commit_activity" commits) ;;
  d <- lift (calculate_documentation_score repo) ;;
  repo <- lift (py_setitem repo "doc_score" (JNum d)) ;;
  c <- lift (calculate_code_quality_score repo) ;;
  repo <- lift (py_setitem repo "code_score" (JNum c)) ;;
  a <- calculate_activity_score repo ;;
  lift (py_setitem repo "activity_score" (JNum a)).

Fixpoint enhance_all (repos : list json) : M (list json) :=
  match repos with
  | [] => ret []
  | r :: rs => r' <- enhance_repo r ;; rs' <- enhance_all rs ;; ret (r' :: rs')
  end.

(** The three outcomes of [get_enhanced_github_data]: the ["NO_TOKEN"]
    and ["ERROR"] sentinels, or the bundle [{user, repos, orgs}]. *)
Inductive fetch_result : Type :=
| FNoToken : fetch_result
| FError : fetch_result
| FBundle : json -> list json -> json -> fetch_result.

(** [get_enhanced_github_data(username)]; the [st.error] call of the
    [except] branch only writes to the page. *)
Definition get_enhanced_github_data (username : string) : M fetch_result :=
  w <- ask_world ;;
  match github_token w with
  | None => ret FNoToken
  | Some t =>
    if String.eqb t EmptyString then ret FNoToken else
    try_except
      ('(ucode, ubody) <- http_get (UUser username) ;;
       if negb (Z.eqb ucode 200) then ret FError
       else
         user_data <- lift (resp_json ubody) ;;
         repos <- fetch_pages username 50 1 [] ;;
         enhanced_repos <- enhance_all repos ;;
         '(ocode, obody) <- http_get (UOrgs username) ;;
         orgs <- (if Z.eqb ocode 200 then lift (resp_json obody) else ret (JArr [])) ;;
         ret (FBundle user_data enhanced_repos orgs))
      (ret FError)
  end.

(** The bundle as the Python dict later code receives. *)
Definition data_of (r : fetch_result) : json :=
  match r with
  | FNoToken => JStr "NO_TOKEN"
  | FError => JStr "ERROR"
  | FBundle u rs o => JObj [("user", u); ("repos", JArr rs); ("orgs", o)]
  end.

Definition run {A} (m : M A) (w : World) : res A := snd (m w init_state).

(** ** Portfolio score (app.py lines 223-285) *)

(** [sum(r.get(key, 0) for r in items)], left to right from the int [0]. *)
Fixpoint py_sum_field (key : string) (items : list json) (acc : Q) : res Q :=
  match items with
  | [] => Ok acc
  | r :: rs =>
      let? v := py_get r key (JNum 0) in
      let? q := py_num v in
      py_sum_field key rs (acc + q)
  end.

(** [languages.update(repo.get('languages', {}).keys())] over all repos;
    the set is kept as a duplicate-free list. *)
Fixpoint collect_languages (items : list json) (langs : list string)
  : res (list string) :=
  match items with
  | [] => Ok langs
  | r :: rs =>
      let? l := py_get r "languages" (JObj []) in
      match l with
      | JObj d =>
          let langs := fold_left (fun acc '(k, _) =>
                         if existsb (String.eqb k) acc then acc else (acc ++ [k])%list)
                         d langs in
          collect_languages rs langs
      | _ => Exc AttributeError       (* no .keys() *)
      end
  end.

(** Python's [round(x, 1)]: round half to even on the tenths. *)
Definition round_half_even (q : Q) : Z :=
  let f := Qfloor q in
  let d := (q - inject_Z f)%Q in
  if qltb d (1 # 2) then f
  else if qltb (1 # 2) d then (f + 1)%Z
  else if Z.even f then f else (f + 1)%Z.

Definition round1 (q : Q) : Q := round_half_even (q * 10) # 10.

(** The six dimension values, before rounding. *)
Record dims6 : Type := {
  doc_dim : Q; code_dim : Q; activity_dim : Q;
  org_dim : Q; impact_dim : Q; tech_dim : Q }.

(** The body of [calculate_portfolio_score] up to the weights: [None] for
    the two early [return 0, {}]. *)
Definition portfolio_components (data : json) : res (option dims6) :=
  if (negb (truthy data)
      || match data with
         | JStr s => (String.eqb s "ERROR" || String.eqb s "NO_TOKEN")%bool
         | _ => false
         end)%bool
  then Ok None
  else
    let? repos := py_get data "repos" (JArr []) in
    if negb (truthy repos) then Ok None
    else
      let? items := py_iter repos in
      let? n := py_len repos in
      let len := inject_Z (Z.of_nat n) in
      let? ds := py_sum_field "doc_score" items 0 in
      let? cs := py_sum_field "code_score" items 0 in
      let? acs := py_sum_field "activity_score" items 0 in
      let doc_score := ds / len in
      let code_score := cs / len in
      let activity_score := acs / len in
      let? orgs := py_get data "orgs" JNull in
      let org_score : Q := if truthy orgs then 20 else 0 in
      let org_score := if Nat.leb 5 n then org_score + 20 else org_score in
      let org_score := if Nat.leb 3 n then org_score + 20 else org_score in
      let? total_stars := py_sum_field "stargazers_count" items 0 in
      let? total_forks := py_sum_field "forks_count" items 0 in
      let impact_score := py_min 100 ((total_stars * 2 + total_forks) / 5) in
      let? languages := collect_languages items [] in
      let tech_score := (0 + py_min 40 (inject_Z (Z.of_nat (length languages)) * 8))%Q in
      Ok (Some {| doc_dim := doc_score; code_dim := code_score;
                  activity_dim := activity_score; org_dim := org_score;
                  impact_dim := impact_score; tech_dim := tech_score |}).

Definition weights : list (string * Q) :=
  [("documentation", 20 # 100); ("code_quality", 20 # 100);
   ("activity", 15 # 100); ("organization", 15 # 100);
   ("impact", 15 # 100); ("technical_depth", 15 # 100)].

Definition weight (k : string) : Q :=
  match find (fun '(k', _) => String.eqb k k') weights with
  | Some (_, q) => q
  | None => 0
  end.

Definition portfolio_final (x : dims6) : Q :=
  doc_dim x * weight "documentation" +
  code_dim x * weight "code_quality" +
  activity_dim x * weight "activity" +
  org_dim x * weight "organization" +
  impact_dim x * weight "impact" +
  tech_dim x * weight "technical_depth".

Definition dimension_scores_of (x : dims6) : list (string * Q) :=
  [("Documentation Quality", round1 (doc_dim x));
   ("Code Structure & Best Practices", round1 (code_dim x));
   ("Activity Consistency", round1 (activity_dim x));
   ("Repository Organization", round1 (org_dim x));
   ("Project Impact", round1 (impact_dim x));
   ("Technical Depth", round1 (tech_dim x))].

(** [calculate_portfolio_score(data)] *)
Definition calculate_portfolio_score (data : json) : res (Q * list (string * Q)) :=
  let? c := portfolio_components data in
  match c with
  | None => Ok (0%Q, [])
  | Some x => Ok (round1 (portfolio_final x), dimension_scores_of x)
  end.

(** ** Recommendations (app.py lines 287-325) *)

(** The action text; [ActAbout p name s] is [f"{p}{name}{s}"]. *)
Inductive action : Type :=
| ActText : string -> action
| ActAbout : string -> json -> string -> action.

Record recommendation : Type := {
  rec_repo : json; rec_issue : string; rec_action : action; rec_priority : string }.

(** [dimension_scores[k]] *)
Definition dim_lookup (dims : list (string * Q)) (k : string) : res Q :=
  match find (fun '(k', _) => String.eqb k k') dims with
  | Some (_, q) => Ok q
  | None => Exc KeyError
  end.

Definition rec_poor_doc : recommendation :=
  {| rec_repo := JStr "General"; rec_issue := "Poor Documentation";
     rec_action := ActText "Add comprehensive READMEs with setup instructions, features, and screenshots";
     rec_priority := "High" |}.

Definition rec_inconsistent : recommendation :=
  {| rec_repo := JStr "General"; rec_issue := "Inconsistent Activity";
     rec_action := ActText "Commit code at least 3-4 times per week to show active development";
     rec_priority := "Medium" |}.

Definition rec_missing_doc (name : json) : recommendation :=
  {| rec_repo := name; rec_issue := "Missing Documentation";
     rec_action := ActAbout "Add a detailed README.md to " name
                     " with project description and setup guide";
     rec_priority := "High" |}.

Definition rec_low_impact (name : json) : recommendation :=
  {| rec_repo := name; rec_issue := "Low Impact";
     rec_action := ActAbout "Promote " name
                     " on social media and add screenshots to attract users";
     rec_priority := "Medium" |}.

(** The loop [for repo in data.get('repos', []):], appending to
    [recommendations]. *)
Fixpoint repo_recs_loop (items : list json) (acc : list recommendation)
  : res (list recommendation) :=
  match items with
  | [] => Ok acc
  | repo :: rest =>
      let? ds := py_get repo "doc_score" (JNum 0) in
      let? low := py_lt ds 40 in
      let? acc := (if low then let? name := py_index repo "name" in
                               Ok (acc ++ [rec_missing_doc name])%list
                   else Ok acc) in
      let? sc := py_get repo "stargazers_count" (JNum 0) in
      let? acc := (if py_eq0 sc then
                     let? fc := py_get repo "forks_count" (JNum 0) in
                     if py_eq0 fc then let? name := py_index repo "name" in
                                       Ok (acc ++ [rec_low_impact name])%list
                     else Ok acc
                   else Ok acc) in
      repo_recs_loop rest acc
  end.

(** [get_actionable_recommendations(data, dimension_scores)] *)
Definition get_actionable_recommendations (data : json)
    (dimension_scores : list (string * Q)) : res (list recommendation) :=
  let recommendations := [] in
  let? dq := dim_lookup dimension_scores "Documentation Quality" in
  let recommendations := if qltb dq 60 then (recommendations ++ [rec_poor_doc])%list
                         else recommendations in
  let? ac := dim_lookup dimension_scores "Activity Consistency" in
  let recommendations := if qltb ac 50 then (recommendations ++ [rec_inconsistent])%list
                         else recommendations in
  let? repos := py_get data "repos" (JArr []) in
  let? items := py_iter repos in
  let? recommendations := repo_recs_loop items recommendations in
  Ok (firstn 5 recommendations).

(** ** AI assessment adapter (app.py lines 327-390) *)

(** *** [json.loads] (CPython's pure-Python scanner)

    Whitespace is [[ \t\n\r]]; strings reject raw control characters and
    decode [\uXXXX] escapes (surrogate pairs joined) to UTF-8 bytes; numbers
    follow [-?(0|[1-9]\d* )(\.\d+)?([eE][-+]?\d+)?].  The non-standard
    literals [NaN], [Infinity], [-Infinity] that CPython also accepts are not
    modelled (they are rejected here).  Duplicate keys: the last value wins,
    at the first key's position ([dict_set]).  The fuel counts nested
    calls, each of which consumes a character, so the length of the input
    plus one is enough. *)

Definition is_ws (c : ascii) : bool :=
  (Ascii.eqb c " "%char || Ascii.eqb c (ascii_of_nat 9) || Ascii.eqb c (ascii_of_nat 10)
   || Ascii.eqb c (ascii_of_nat 13))%bool.

Fixpoint skip_ws (s : list ascii) : list ascii :=
  match s with
  | c :: r => if is_ws c then skip_ws r else s
  | [] => []
  end.

Definition hex_val (c : ascii) : option Z :=
  let n := Z.of_nat (nat_of_ascii c) in
  if digit c then Some (n - 48)%Z
  else if in_range "a" "f" c then Some (n - 87)%Z
  else if in_range "A" "F" c then Some (n - 55)%Z
  else None.

Definition hex4 (s : list ascii) : option (Z * list ascii) :=
  match s with
  | a :: b :: c :: d :: r =>
      match hex_val a, hex_val b, hex_val c, hex_val d with
      | Some x, Some y, Some z, Some t => Some ((((x * 16 + y) * 16 + z) * 16 + t)%Z, r)
      | _, _, _, _ => None
      end
  | _ => None
  end.

Definition dquote : ascii := ascii_of_nat 34.
Definition bslash : ascii := ascii_of_nat 92.

Definition byte (z : Z) : ascii := ascii_of_nat (Z.to_nat z).

(** UTF-8 bytes of a code point (lone surrogates as three bytes). *)
Definition utf8_encode (u : Z) : list ascii :=
  if Z.ltb u 128 then [byte u]
  else if Z.ltb u 2048 then [byte (192 + u / 64); byte (128 + u mod 64)]
  else if Z.ltb u 65536 then
    [byte (224 + u / 4096); byte (128 + (u / 64) mod 64); byte (128 + u mod 64)]
  else [byte (240 + u / 262144); byte (128 + (u / 4096) mod 64);
        byte (128 + (u / 64) mod 64); byte (128 + u mod 64)].

(** The characters of a string literal after the opening quote. *)
Fixpoint scan_string (fuel : nat) (s : list ascii) : option (list ascii * list ascii) :=
  match fuel with
  | O => None
  | S f =>
    match s with
    | [] => None
    | c :: r =>
      if Ascii.eqb c dquote then Some ([], r)
      else if Nat.ltb (nat_of_ascii c) 32 then None
      else if Ascii.eqb c bslash then
        match r with
        | [] => None
        | e :: r' =>
          let simple (b : ascii) :=
            match scan_string f r' with
            | Some (cs, rest) => Some (b :: cs, rest)
            | None => None
            end in
          if Ascii.eqb e dquote then simple dquote
          else if Ascii.eqb e bslash then simple bslash
          else if Ascii.eqb e "/"%char then simple "/"%char
          else if Ascii.eqb e "b"%char then simple (ascii_of_nat 8)
          else if Ascii.eqb e "f"%char then simple (ascii_of_nat 12)
          else if Ascii.eqb e "n"%char then simple (ascii_of_nat 10)
          else if Ascii.eqb e "r"%char then simple (ascii_of_nat 13)
          else if Ascii.eqb e "t"%char then simple (ascii_of_nat 9)
          else if Ascii.eqb e "u"%char then
            match hex4 r' with
            | None => None
            | Some (u, r2) =>
              let '(cp, r3) :=
                if (Z.leb 55296 u && Z.leb u 56319)%bool then
                  match r2 with
                  | b1 :: b2 :: r4 =>
                      if (Ascii.eqb b1 bslash && Ascii.eqb b2 "u"%char)%bool then
                        match hex4 r4 with
                        | Some (u2, r5) =>
                            if (Z.leb 56320 u2 && Z.leb u2 57343)%bool
                            then (65536 + (u - 55296) * 1024 + (u2 - 56320), r5)%Z
                            else (u, r2)
                        | None => (u, r2)
                        end
                      else (u, r2)
                  | _ => (u, r2)
                  end
                else (u, r2) in
              match scan_string f r3 with
              | Some (cs, rest) => Some ((utf8_encode cp ++ cs)%list, rest)
              | None => None
              end
            end
          else None
        end
      else
        match scan_string f r with
        | Some (cs, rest) => Some (c :: cs, rest)
        | None => None
        end
    end
  end.

Fixpoint scan_digits (s : list ascii) : list ascii * list ascii :=
  match s with
  | c :: r => if digit c then let '(ds, rest) := scan_digits r in (c :: ds, rest)
              else ([], s)
  | [] => ([], [])
  end.

Definition digits_value (ds : list ascii) : Z := int_of_digits ds.

(** A number literal; [None] when the regex does not match. *)
Definition scan_number (s : list ascii) : option (Q * list ascii) :=
  let '(neg, s1) := match s with
                    | c :: r => if Ascii.eqb c "-"%char then (true, r) else (false, s)
                    | [] => (false, s)
                    end in
  let int_part :=
    match s1 with
    | c :: r => if Ascii.eqb c "0"%char then Some ([c], r)
                else if in_range "1" "9" c then
                  let '(ds, rest) := scan_digits r in Some (c :: ds, rest)
                else None
    | [] => None
    end in
  match int_part with
  | None => None
  | Some (ids, s2) =>
    let '(frac, s3) :=
      match s2 with
      | c :: r => if Ascii.eqb c "."%char then
                    match scan_digits r with
                    | ([], _) => ([], s2)
                    | (fs, rest) => (fs, rest)
                    end
                  else ([], s2)
      | [] => ([], s2)
      end in
    let '(ex, s4) :=
      match s3 with
      | c :: r =>
        if (Ascii.eqb c "e"%char || Ascii.eqb c "E"%char)%bool then
          let '(sign, r1) := match r with
                             | d :: r' => if Ascii.eqb d "-"%char then ((-1)%Z, r')
                                          else if Ascii.eqb d "+"%char then (1%Z, r')
                                          else (1%Z, r)
                             | [] => (1%Z, r)
                             end in
          match scan_digits r1 with
          | ([], _) => (0%Z, s3)
          | (es, rest) => ((sign * digits_value es)%Z, rest)
          end
        else (0%Z, s3)
      | [] => (0%Z, s3)
      end in
    let mant := (digits_value ids * 10 ^ Z.of_nat (length frac) + digits_value frac)%Z in
    let mant := if neg then (- mant)%Z else mant in
    let scale := (ex - Z.of_nat (length frac))%Z in
    let v := if Z.leb 0 scale then inject_Z (mant * 10 ^ scale)
             else (mant # Z.to_pos (10 ^ (- scale))) in
    Some (v, s4)
  end.

Definition starts_with (p s : list ascii) : option (list ascii) :=
  if (Nat.leb (length p) (length s)
      && forallb (fun '(a, b) => Ascii.eqb a b) (combine p (firstn (length p) s)))%bool
  then Some (skipn (length p) s) else None.

Fixpoint parse_value (fuel : nat) (s : list ascii) : option (json * list ascii) :=
  match fuel with
  | O => None
  | S f =>
    match s with
    | [] => None
    | c :: r =>
      if Ascii.eqb c "{"%char then
        match skip_ws r with
        | c' :: r' => if Ascii.eqb c' "}"%char then Some (JObj [], r')
                      else parse_members f [] (c' :: r')
        | [] => None
        end
      else if Ascii.eqb c "["%char then
        match skip_ws r with
        | c' :: r' => if Ascii.eqb c' "]"%char then Some (JArr [], r')
                      else parse_elements f [] (c' :: r')
        | [] => None
        end
      else if Ascii.eqb c dquote then
        match scan_string (S (length r)) r with
        | Some (cs, rest) => Some (JStr (string_of_list_ascii cs), rest)
        | None => None
        end
      else match starts_with (list_ascii_of_string "null") s with
      | Some rest => Some (JNull, rest)
      | None =>
      match starts_with (list_ascii_of_string "true") s with
      | Some rest => Some (JBool true, rest)
      | None =>
      match starts_with (list_ascii_of_string "false") s with
      | Some rest => Some (JBool false, rest)
      | None =>
        match scan_number s with
        | Some (q, rest) => Some (JNum q, rest)
        | None => None
        end
      end end end
    end
  end
(** Object members, positioned at a key; [acc] holds the members so far. *)
with parse_members (fuel : nat) (acc : list (string * json)) (s : list ascii)
  : option (json * list ascii) :=
  match fuel with
  | O => None
  | S f =>
    match s with
    | c :: r =>
      if Ascii.eqb c dquote then
        match scan_string (S (length r)) r with
        | None => None
        | Some (kcs, r1) =>
          let k := string_of_list_ascii kcs in
          match skip_ws r1 with
          | c1 :: r2 =>
            if Ascii.eqb c1 ":"%char then
              match parse_value f (skip_ws r2) with
              | None => None
              | Some (v, r3) =>
                let acc := dict_set k v acc in
                match skip_ws r3 with
                | c2 :: r4 =>
                  if Ascii.eqb c2 "}"%char then Some (JObj acc, r4)
                  else if Ascii.eqb c2 ","%char then parse_members f acc (skip_ws r4)
                  else None
                | [] => None
                end
              end
            else None
          | [] => None
          end
        end
      else None
    | [] => None
    end
  end
(** Array elements, positioned at a value. *)
with parse_elements (fuel : nat) (acc : list json) (s : list ascii)
  : option (json * list ascii) :=
  match fuel with
  | O => None
  | S f =>
    match parse_value f s with
    | None => None
    | Some (v, r) =>
      let acc := (acc ++ [v])%list in
      match skip_ws r with
      | c :: r' =>
        if Ascii.eqb c "]"%char then Some (JArr acc, r')
        else if Ascii.eqb c ","%char then parse_elements f acc (skip_ws r')
        else None
      | [] => None
      end
    end
  end.

(** [json.loads(text)]; [None] where it raises [JSONDecodeError]. *)
Definition json_loads (text : string) : option json :=
  let s := skip_ws (list_ascii_of_string text) in
  match parse_value (S (length s)) s with
  | Some (v, r) => match skip_ws r with [] => Some v | _ => None end
  | None => None
  end.

(** [s.replace(old, new)] for a non-empty [old]: left to right, non
    overlapping. *)
Fixpoint replace_aux (fuel : nat) (old new s : list ascii) : list ascii :=
  match fuel with
  | O => s
  | S f =>
    match s with
    | [] => []
    | c :: r =>
      match starts_with old s with
      | Some rest => (new ++ replace_aux f old new rest)%list
      | None => c :: replace_aux f old new r
      end
    end
  end.

Definition py_replace (s old new : string) : string :=
  string_of_list_ascii
    (replace_aux (S (String.length s)) (list_ascii_of_string old)
       (list_ascii_of_string new) (list_ascii_of_string s)).

(** [s.strip()]: the ASCII characters for which [str.isspace()] holds
    (non-ASCII whitespace is not modelled). *)
Definition py_isspace (c : ascii) : bool :=
  let n := nat_of_ascii c in
  (Nat.eqb n 32 || (Nat.leb 9 n && Nat.leb n 13) || (Nat.leb 28 n && Nat.leb n 31))%bool.

Fixpoint drop_space (s : list ascii) : list ascii :=
  match s with
  | c :: r => if py_isspace c then drop_space r else s
  | [] => []
  end.

Definition py_strip (s : string) : string :=
  string_of_list_ascii (rev (drop_space (rev (drop_space (list_ascii_of_string s))))).

Definition backticks : string := "```".

(** [response.text.replace("```json", "").replace("```", "").strip()] *)
Definition clean_response (text : string) : string :=
  py_strip (py_replace (py_replace text (backticks ++ "json") EmptyString)
                       backticks EmptyString).

(** Outcome of [model.generate_content(prompt)] followed by
    [response.text]: it raises, or it yields the reply text. *)
Inductive gen_reply : Type :=
| GenRaise : gen_reply
| GenText : string -> gen_reply.

Fixpoint res_iter {A} (f : A -> res unit) (l : list A) : res unit :=
  match l with
  | [] => Ok tt
  | x :: xs => let? _ := f x in res_iter f xs
  end.

(** [x[:10]] succeeds on strings and lists. *)
Definition py_slice10 (v : json) : res (list json) :=
  match v with
  | JArr l => Ok (firstn 10 l)
  | JStr _ => let? l := py_iter v in Ok (firstn 10 l)
  | _ => Exc TypeError
  end.

(** The language of a repo is put in a [set] (unhashable lists and dicts
    raise) and joined with [', '] (non-strings raise). *)
Definition lang_ok (v : json) : res unit :=
  if negb (truthy v) then Ok tt
  else match v with
       | JArr _ | JObj _ => Exc TypeError
       | JStr _ => Ok tt
       | _ => Exc TypeError
       end.

(** The lookups made while building the prompt (outside the [try]); the
    prompt text itself only goes to the model, whose reply is an input. *)
Definition prompt_inputs_ok (data : json) : res unit :=
  let? repos := py_index data "repos" in
  let? top10 := py_slice10 repos in
  let? _ := res_iter (fun r => let? _ := py_index r "name" in
                               let? _ := py_get r "language" (JStr "N/A") in
                               let? _ := py_get r "stargazers_count" (JNum 0) in Ok tt) top10 in
  let? items := py_iter repos in
  let? _ := res_iter (fun r => let? l := py_get r "language" JNull in lang_ok l) items in
  let? user := py_index data "user" in
  let? _ := py_index user "login" in
  let? _ := py_index user "followers" in
  let? _ := py_index user "following" in
  let? _ := py_index user "public_repos" in
  let? created := py_index user "created_at" in
  let? _ := py_slice10 created in
  let? orgs := py_get data "orgs" (JArr []) in
  let? _ := py_len orgs in
  Ok tt.

(** [analyze_with_ai(data, model_name)]: [Ok None] is Python's [None];
    the [st.error] call of the [except] branch only writes to the page. *)
Definition analyze_with_ai (data : json) (model_name : option string)
    (reply : gen_reply) : res (option json) :=
  match model_name with
  | None => Ok None
  | Some m =>
    if String.eqb m EmptyString then Ok None else
    let? _ := prompt_inputs_ok data in
    match reply with
    | GenRaise => Ok None
    | GenText t =>
        match json_loads (clean_response t) with
        | Some v => Ok (Some v)
        | None => Ok None
        end
    end
  end.

(** The keys of the AIAssessment schema requested by the prompt. *)
Definition ai_assessment_keys : list string :=
  ["score"; "verdict"; "role"; "summary"; "skills"; "soft_skills"; "pros";
   "cons"; "interview_questions"; "archive_repos"; "improve_repos"].

Definition has_all_keys (v : json) : bool :=
  match v with
  | JObj d => forallb (fun k => match assoc_get k d with Some _ => true | None => false end)
                      ai_assessment_keys
  | _ => false
  end.

(** ** Small test values *)

Definition qt (s : string) : string := String dquote (s ++ String dquote EmptyString).

Definition sample_user : json :=
  JObj [("login", JStr "octocat"); ("followers", JNum 1); ("following", JNum 0);
        ("public_repos", JNum 1); ("created_at", JStr "2011-01-25T18:44:36Z")].

Definition sample_repo : json :=
  JObj [("name", JStr "hello"); ("full_name", JStr "octocat/hello");
        ("languages_url", JStr "https://api.github.com/repos/octocat/hello/languages");
        ("pushed_at", JStr "2024-05-01T10:00:00Z"); ("stargazers_count", JNum 0);
        ("forks_count", JNum 0); ("size", JNum 12); ("description", JStr "x")].

Definition sample_data : json :=
  JObj [("user", sample_user); ("repos", JArr [sample_repo]); ("orgs", JArr [])].

Example json_loads_obj :
  json_loads (" {" ++ qt "a" ++ ": [1, -2.5e1, true, null], " ++ qt "b" ++ ": {}} ")
  = Some (JObj [("a", JArr [JNum 1; JNum (-25); JBool true; JNull]); ("b", JObj [])]).
Proof. vm_compute. reflexivity. Qed.

Example json_loads_trailing : json_loads "[1,]" = None.
Proof. vm_compute. reflexivity. Qed.

Example clean_fenced :
  clean_response (backticks ++ "json" ++ String (ascii_of_nat 10) "{}" ++ backticks) = "{}".
Proof. vm_compute. reflexivity. Qed.

Example strptime_ok :
  strptime_github (JStr "2024-05-01T10:00:00Z")
  = Ok ((toordinal 2024 5 1 * usec_per_day + 36000 * 1000000)%Z).
Proof. vm_compute. reflexivity. Qed.

Example strptime_default_fails : strptime_github (JStr "2000-01-01") = Exc ValueError.
Proof. vm_compute. reflexivity. Qed.

Example strptime_short_fields :
  strptime_github (JStr "2024-5-1t1:2:3z") = mk_datetime 2024 5 1 1 2 3.
Proof. vm_compute. reflexivity. Qed.

Example toordinal_2000 : toordinal 2000 1 1 = 730120%Z.
Proof. reflexivity. Qed.

(** ** Worlds used by the examples *)

(** [datetime(y, m, d, hh, mi, ss)] of valid fields. *)
Definition datetime_of (y m d hh mi ss : Z) : Z :=
  (toordinal y m d * usec_per_day + ((hh * 60 + mi) * 60 + ss) * 1000000)%Z.

(** A world whose clock always reads [now] and whose network is down. *)
Definition world_at (now : Z) : World :=
  {| github_token := Some "ghp_example"; net := fun _ => RRaise;
     clock := fun _ => now; b64_utf8_prefix := fun _ => None |}.

(** The six dimension values all lie in [0, 100]. *)
Definition dims_in_range (x : dims6) : Prop :=
  0 <= doc_dim x <= 100 /\ 0 <= code_dim x <= 100 /\ 0 <= activity_dim x <= 100 /\
  0 <= org_dim x <= 100 /\ 0 <= impact_dim x <= 100 /\ 0 <= tech_dim x <= 100.

(** ** Recommendations in evaluation order

    The order the spec describes: the portfolio-wide rules first, then the
    rules of each repository, repository by repository in fetch order.
    [repo_recs] is the body of the per-repository loop for one repo. *)
Definition repo_recs (repo : json) : res (list recommendation) :=
  let? ds := py_get repo "doc_score" (JNum 0) in
  let? low := py_lt ds 40 in
  let? r1 := (if low then let? name := py_index repo "name" in Ok [rec_missing_doc name]
              else Ok []) in
  let? sc := py_get repo "stargazers_count" (JNum 0) in
  let? r2 := (if py_eq0 sc then
                let? fc := py_get repo "forks_count" (JNum 0) in
                if py_eq0 fc then let? name := py_index repo "name" in
                                  Ok [rec_low_impact name]
                else Ok []
              else Ok []) in
  Ok (r1 ++ r2)%list.

Fixpoint per_repo_recs (items : list json) : res (list recommendation) :=
  match items with
  | [] => Ok []
  | repo :: rest =>
      let? r := repo_recs repo in
      let? rs := per_repo_recs rest in
      Ok (r ++ rs)%list
  end.

Definition portfolio_wide_recs (dimension_scores : list (string * Q))
  : res (list recommendation) :=
  let? dq := dim_lookup dimension_scores "Documentation Quality" in
  let? ac := dim_lookup dimension_scores "Activity Consistency" in
  Ok ((if qltb dq 60 then [rec_poor_doc] else []) ++
      (if qltb ac 50 then [rec_inconsistent] else []))%list.

Definition recommendations_in_evaluation_order (data : json)
    (dimension_scores : list (string * Q)) : res (list recommendation) :=
  let? g := portfolio_wide_recs dimension_scores in
  let? repos := py_get data "repos" (JArr []) in
  let? items := py_iter repos in
  let? r := per_repo_recs items in
  Ok (g ++ r)%list.

(** Scenario D: two portfolio-wide rules and two rules for each of two
    repositories fire. *)
Definition six_rule_data : json :=
  JObj [("repos", JArr [JObj [("name", JStr "a"); ("doc_score", JNum 0)];
                        JObj [("name", JStr "b"); ("doc_score", JNum 20)]])].

Definition six_rule_dims : list (string * Q) :=
  [("Documentation Quality", 10); ("Activity Consistency", 25)].

(** A repository host answering by URL: a user profile, the repository
    pages given by [pages], the three enrichment answers, no organisation. *)
Definition gh_net (pages : Z -> list json) (readme langs commits : response)
  : url -> response :=
  fun u => match u with
           | UUser _ => RResp 200 (Some sample_user)
           | URepos _ p => RResp 200 (Some (JArr (pages p)))
           | UReadme _ => readme
           | ULanguages _ => langs
           | UCommitActivity _ => commits
           | UOrgs _ => RResp 200 (Some (JArr []))
           end.

Definition gh_world (n : url -> response) : World :=
  {| github_token := Some "ghp_example"; net := n;
     clock := fun _ => datetime_of 2024 6 1 0 0 0;
     b64_utf8_prefix := fun c => Some c |}.

(** A user with sixty repositories, served thirty per page. *)
Definition sixty_repo_pages (p : Z) : list json :=
  if Z.leb p 2 then repeat sample_repo 30 else [].

Definition one_repo_page (p : Z) : list json :=
  if Z.eqb p 1 then [sample_repo] else [].

Definition ok_json (v : json) : response := RResp 200 (Some v).

(** ** Helpers for the statements *)

(** A fenced reply holding an object with the [score] key only. *)
Definition fenced_partial_reply : string :=
  backticks ++ "json {" ++ qt "score" ++ ": 5}" ++ backticks.

(** [d.get(k, default)] on the entries of a dict. *)
Definition get_default (d : list (string * json)) (k : string) (default : json) : json :=
  match assoc_get k d with Some v => v | None => default end.

Definition share (b : bool) (q : Q) : Q := if b then q else 0.

(** The documentation score of a dict as a function of its five signals. *)
Definition doc_points (b1 b2 b3 b4 b5 : bool) : Q :=
  py_min (share b1 40 + share b2 20 + share b3 10 + share b4 15 + share b5 15) 100.

Definition doc_signals : list string :=
  ["readme_exists"; "description"; "homepage"; "has_wiki"; "has_pages"].

(** The freshness bucket of [calculate_activity_score]. *)
Definition recency_points (days : Z) : Q :=
  if Z.ltb days 7 then 40
  else if Z.ltb days 30 then 30
  else if Z.ltb days 90 then 20
  else 10.

(** [if b: q += x] *)
Definition add_if (b : bool) (x q : Q) : Q := if b then q + x else q.

(** A bundle with two repositories, three languages and one organisation. *)
Definition two_repo_data : json :=
  JObj [("user", sample_user);
        ("repos", JArr [JObj [("name", JStr "a"); ("languages", JObj [("Python", JNum 10); ("C", JNum 3)])];
                        JObj [("name", JStr "b"); ("languages", JObj [("Python", JNum 7)])]]);
        ("orgs", JArr [JObj [("login", JStr "acme")]])].

(** One repository; its languages request raises. *)
Definition lang_call_raises : World :=
  gh_world (gh_net one_repo_page (RResp 404 None) RRaise (RResp 202 None)).

(** The pages of the repository listing requested during a run, in order. *)
Definition repo_pages_requested (l : list url) : list Z :=
  flat_map (fun u => match u with URepos _ p => [p] | _ => [] end) l.

Definition sixty_repo_world : World :=
  gh_world (gh_net sixty_repo_pages (RResp 404 None) (ok_json (JObj [])) (RResp 202 None)).

(** ** Remaining helpers of app.py (lines 82-97) *)


(** [sub in s] on strings. *)
Fixpoint str_contains (sub s : list ascii) : bool :=
  match starts_with sub s with
  | Some _ => true
  | None => match s with [] => false | _ :: s' => str_contains sub s' end
  end.

Definition py_in_str (sub s : string) : bool :=
  str_contains (list_ascii_of_string sub) (list_ascii_of_string s).

(** A model object of [genai.list_models()]: [m.name] and
    [m.supported_generation_methods]. *)
Record model_info : Type := { m_name : string; m_methods : list string }.

(** What [genai.configure(...)] and the iteration of [genai.list_models()]
    produce: the models yielded, and whether a call raises after them (a
    failing [configure] yields nothing and raises). *)
Record model_listing : Type := { listed : list model_info; listing_raises : bool }.

(** The [for m in genai.list_models():] loop: [Ok (Some name)] is the
    early [return m.name], [Ok None] the end of the loop. *)
Fixpoint model_loop (ms : list model_info) (raises : bool) : res (option string) :=
  match ms with
  | [] => if raises then Exc RequestException else Ok None
  | m :: ms' =>
      if existsb (String.eqb "generateContent") (m_methods m) then
        if py_in_str "flash" (m_name m) then Ok (Some (m_name m))
        else model_loop ms' raises
      else model_loop ms' raises
  end.

Definition default_model : string := "models/gemini-1.5-flash".

(** [get_working_model()], with [GEMINI_KEY] given by [gemini_key]. *)
Definition get_working_model (gemini_key : option string) (l : model_listing)
  : option string :=
  match gemini_key with
  | None => None
  | Some k =>
    if String.eqb k EmptyString then None else
    match model_loop (listed l) (listing_raises l) with
    | Ok (Some n) => Some n
    | Ok None => Some default_model
    | Exc _ => Some default_model          (* bare except *)
    end
  end.

(** The analysis branch of the page on a fetched bundle (app.py lines
    430-438): portfolio score, AI analysis, recommendations, in this
    order, with no [try] around them. *)
Definition dashboard_analysis (data : json) (model : option string) (reply : gen_reply)
  : res (Q * list (string * Q) * option json * list recommendation) :=
  let? sd := calculate_portfolio_score data in
  let '(portfolio_score, dimension_scores) := sd in
  let? ai_result := analyze_with_ai data model reply in
  let? recommendations := get_actionable_recommendations data dimension_scores in
  Ok (portfolio_score, dimension_scores, ai_result, recommendations).

(** ** Timestamps as the API sends them

    [pushed_at] values are [dt.strftime('%Y-%m-%dT%H:%M:%SZ')] with a
    four-digit year. *)
Definition digit_char (k : Z) : ascii := ascii_of_nat (Z.to_nat (48 + k)).

Definition digits2 (n : Z) : list ascii :=
  [digit_char (n / 10); digit_char (n mod 10)].

Definition digits4 (n : Z) : list ascii :=
  [digit_char (n / 1000); digit_char ((n / 100) mod 10);
   digit_char ((n / 10) mod 10); digit_char (n mod 10)].

Definition github_timestamp (y m d hh mi ss : Z) : string :=
  string_of_list_ascii
    (digits4 y ++ "-"%char :: digits2 m ++ "-"%char :: digits2 d ++ "T"%char ::
     digits2 hh ++ ":"%char :: digits2 mi ++ ":"%char :: digits2 ss ++ ["Z"%char])%list.

(** The length of the match of the first alternative of a group that
    matches a prefix of [l]. *)
Fixpoint first_match_len (alts : list (list cls)) (l : list ascii) : option nat :=
  match alts with
  | [] => None
  | a :: alts' =>
      match match_alt a l with
      | Some (m, _) => Some (length m)
      | None => first_match_len alts' l
      end
  end.

Definition group_alts (p : piece) : list (list cls) :=
  match p with PGrp alts => alts | PLit _ => [] end.

(** A captured field read back: its group's first matching alternative
    takes all of its digits and [int] gives back its value. *)
Definition field_check (alts : list (list cls)) (dig : Z -> list ascii) (z : Z) : bool :=
  (match first_match_len alts (dig z) with
   | Some k => Nat.eqb k (length (dig z))
   | None => false
   end && Z.eqb (int_of_digits (dig z)) z)%bool.

(** The calendar fields of a valid timestamp. *)
Definition valid_fields (y m d hh mi ss : Z) : Prop :=
  (1 <= y <= 9999 /\ 1 <= m <= 12 /\ 1 <= d <= days_in_month y m /\
   0 <= hh <= 23 /\ 0 <= mi <= 59 /\ 0 <= ss <= 59)%Z.

(** ** The records of a fetched bundle *)

(** The keys the enhancement loop writes into each repository record. *)
Definition enhancement_keys : list string :=
  ["readme_exists"; "readme_preview"; "languages"; "languages_count";
   "commit_activity"; "doc_score"; "code_score"; "activity_score"].

(** The requests the enhancement loop makes for one repository record:
    README, languages, commit activity. *)
Definition repo_requests (r : json) : list url :=
  match r with
  | JObj d =>
      match assoc_get "full_name" d, assoc_get "languages_url" d with
      | Some fn, Some lu => [UReadme fn; ULanguages lu; UCommitActivity fn]
      | _, _ => []
      end
  | _ => []
  end.

(** The fields an enhanced repository record carries. *)
Definition enhanced_record (d : list (string * json)) : Prop :=
  (exists pv p, assoc_get "pushed_at" d = Some pv /\ strptime_github pv = Ok p) /\
  ((assoc_get "readme_exists" d = Some (JBool true) /\
    exists t, assoc_get "readme_preview" d = Some (JStr t)) \/
   (assoc_get "readme_exists" d = Some (JBool false) /\
    assoc_get "readme_preview" d = Some JNull)) /\
  (exists langs n, assoc_get "languages" d = Some langs /\ py_len langs = Ok n /\
     assoc_get "languages_count" d = Some (JNum (Z.of_nat n # 1))) /\
  (exists ds, assoc_get "doc_score" d = Some (JNum ds) /\ 0 <= ds <= 100) /\
  (exists cs, assoc_get "code_score" d = Some (JNum cs) /\ 0 <= cs <= 100) /\
  (exists a, assoc_get "activity_score" d = Some (JNum a) /\ 10 <= a <= 100).

Definition enhanced (r : json) : Prop :=
  match r with JObj d => enhanced_record d | _ => False end.

(** One repository, a README request answered 404, one language, no
    commit statistics yet. *)
Definition one_repo_world : World :=
  gh_world (gh_net one_repo_page (RResp 404 None) (ok_json (JObj [("C", JNum 5)]))
              (RResp 202 None)).

(** * Properties *)

(** ** General lemmas *)

Lemma assoc_get_dict_set (k k' : string) (v : json) (d : list (string * json)) :
  assoc_get k' (dict_set k v d) =
  if String.eqb k' k then Some v else assoc_get k' d.
Proof.
  induction d as [|[k0 v0] d IH]; simpl.
  - destruct (String.eqb k' k); reflexivity.
  - destruct (String.eqb k k0) eqn:E.
    + apply String.eqb_eq in E; subst k0. simpl.
      destruct (String.eqb k' k); reflexivity.
    + simpl. rewrite IH.
      destruct (String.eqb k' k0) eqn:E'; [|reflexivity].
      apply String.eqb_eq in E'; subst k'.
      rewrite String.eqb_sym, E. reflexivity.
Qed.

(** ** AI adapter *)

(** C1 (claim as stated is refuted): a reply decoding to an object with
    only the [score] key is returned as that object, which misses the
    other ten AIAssessment keys. *)
Lemma analyze_with_ai_partial_counterexample :
  ~ (forall data model_name reply v,
       analyze_with_ai data model_name reply = Ok (Some v) ->
       has_all_keys v = true).
Proof.
  intro H.
  specialize (H sample_data (Some "models/gemini-1.5-flash")
                (GenText fenced_partial_reply) (JObj [("score", JNum 5)])).
  assert (E : analyze_with_ai sample_data (Some "models/gemini-1.5-flash")
                (GenText fenced_partial_reply) = Ok (Some (JObj [("score", JNum 5)]))).
  { vm_compute. reflexivity. }
  specialize (H E). vm_compute in H. discriminate H.
Qed.

(** C1 (amended): with a model name and a data bundle the prompt can be
    built from, [analyze_with_ai] returns [None] when the model call raises
    and otherwise exactly what [json.loads] makes of the fence-stripped
    reply ([None] when it does not decode), without checking any key of
    the AIAssessment schema; without a model name it returns [None]. *)
Theorem analyze_with_ai_returns_decoded_reply (data : json) (m t : string)
  (Hm : m <> EmptyString) (Hp : prompt_inputs_ok data = Ok tt) :
  analyze_with_ai data (Some m) (GenText t) = Ok (json_loads (clean_response t)) /\
  analyze_with_ai data (Some m) GenRaise = Ok None /\
  (forall r, analyze_with_ai data None r = Ok None).
Proof.
  unfold analyze_with_ai.
  destruct (String.eqb m EmptyString) eqn:E.
  { apply String.eqb_eq in E. contradiction. }
  rewrite Hp. simpl.
  split; [destruct (json_loads (clean_response t)); reflexivity|].
  split; [reflexivity | intro r; reflexivity].
Qed.

Lemma analyze_with_ai_returns_decoded_reply_witness :
  "m" <> EmptyString /\ prompt_inputs_ok sample_data = Ok tt /\
  analyze_with_ai sample_data (Some "m") (GenText fenced_partial_reply)
  = Ok (json_loads (clean_response fenced_partial_reply)).
Proof.
  assert (Hm : "m" <> EmptyString) by discriminate.
  assert (Hp : prompt_inputs_ok sample_data = Ok tt) by (vm_compute; reflexivity).
  split; [exact Hm | split; [exact Hp |]].
  exact (proj1 (analyze_with_ai_returns_decoded_reply sample_data "m"
                  fenced_partial_reply Hm Hp)).
Defined.

(** ** Per-repository sub-scores *)



(** C5 (claim as stated is refuted): the five signals do not carry equal
    shares; a repository with only a detected language scores 20, one with
    only a non-zero size scores 25. *)
Lemma code_quality_unequal_shares_counterexample :
  ~ (exists share_each : Q,
       calculate_code_quality_score (JObj [("languages_count", JNum 1)]) = Ok share_each /\
       calculate_code_quality_score (JObj [("size", JNum 1)]) = Ok share_each).
Proof.
  intros [q [H1 H2]]. vm_compute in H1, H2.
  rewrite <- H1 in H2. discriminate H2.
Qed.

(** C5 (amended): on every repository dict on which it returns, the code
    quality score is the sum of fixed shares 20 (a detected language),
    15 (issues enabled), 15 (projects enabled), 25 (non-zero size) and
    25 (non-zero stars); the shares add up to 100, so the cap at 100 never
    changes the sum. *)
Theorem calculate_code_quality_score_shares (d : list (string * json)) (s : Q)
  (H : calculate_code_quality_score (JObj d) = Ok s) :
  exists b1 b4 b5 : bool,
    py_gt0 (get_default d "languages_count" (JNum 0)) = Ok b1 /\
    py_gt0 (get_default d "size" (JNum 0)) = Ok b4 /\
    py_gt0 (get_default d "stargazers_count" (JNum 0)) = Ok b5 /\
    s == share b1 20 + share (truthy (get_default d "has_issues" (JBool false))) 15
         + share (truthy (get_default d "has_projects" (JBool false))) 15
         + share b4 25 + share b5 25 /\
    0 <= s <= 100.
Proof.
  unfold calculate_code_quality_score in H. cbn [py_get res_bind] in H.
  fold (get_default d "languages_count" (JNum 0)) in H.
  fold (get_default d "has_issues" (JBool false)) in H.
  fold (get_default d "has_projects" (JBool false)) in H.
  fold (get_default d "size" (JNum 0)) in H.
  fold (get_default d "stargazers_count" (JNum 0)) in H.
  destruct (py_gt0 (get_default d "languages_count" (JNum 0))) as [b1|] eqn:E1;
    [|discriminate H]; cbn [res_bind] in H.
  destruct (py_gt0 (get_default d "size" (JNum 0))) as [b4|] eqn:E4;
    [|discriminate H]; cbn [res_bind] in H.
  destruct (py_gt0 (get_default d "stargazers_count" (JNum 0))) as [b5|] eqn:E5;
    [|discriminate H]; cbn [res_bind] in H.
  exists b1, b4, b5. split; [reflexivity|]. split; [reflexivity|]. split; [reflexivity|].
  injection H as <-.
  destruct b1, b4, b5,
    (truthy (get_default d "has_issues" (JBool false))),
    (truthy (get_default d "has_projects" (JBool false)));
    vm_compute; split; try reflexivity; split; discriminate.
Qed.

Lemma calculate_code_quality_score_shares_witness :
  calculate_code_quality_score sample_repo = Ok 25%Q /\ 0 <= 25 <= 100.
Proof.
  assert (H : calculate_code_quality_score sample_repo = Ok 25%Q)
    by (vm_compute; reflexivity).
  split; [exact H|].
  destruct (calculate_code_quality_score_shares _ _ H) as (b1 & b4 & b5 & _ & _ & _ & _ & B).
  exact B.
Defined.


Lemma calculate_documentation_score_obj (d : list (string * json)) :
  exists p, calculate_documentation_score (JObj d) = Ok p /\
  p == doc_points (truthy (get_default d "readme_exists" (JBool false)))
                  (truthy (get_default d "description" JNull))
                  (truthy (get_default d "homepage" JNull))
                  (truthy (get_default d "has_wiki" JNull))
                  (truthy (get_default d "has_pages" JNull)).
Proof.
  eexists. split; [reflexivity|].
  unfold get_default, doc_points.
  destruct (truthy match assoc_get "readme_exists" d with Some v => v | None => JBool false end),
    (truthy match assoc_get "description" d with Some v => v | None => JNull end),
    (truthy match assoc_get "homepage" d with Some v => v | None => JNull end),
    (truthy match assoc_get "has_wiki" d with Some v => v | None => JNull end),
    (truthy match assoc_get "has_pages" d with Some v => v | None => JNull end);
    vm_compute; reflexivity.
Qed.

Lemma doc_points_mono (b1 b2 b3 b4 b5 c1 c2 c3 c4 c5 : bool) :
  implb b1 c1 = true -> implb b2 c2 = true -> implb b3 c3 = true ->
  implb b4 c4 = true -> implb b5 c5 = true ->
  doc_points b1 b2 b3 b4 b5 <= doc_points c1 c2 c3 c4 c5.
Proof.
  destruct b1, b2, b3, b4, b5, c1, c2, c3, c4, c5; simpl; intros;
    try discriminate; vm_compute; discriminate.
Qed.


(** C8: turning on any one of the five documentation signals of a
    repository dict (setting it to a truthy value, the others untouched)
    never decreases [calculate_documentation_score]. *)
Theorem calculate_documentation_score_monotone
  (d : list (string * json)) (k : string) (v : json) (s1 s2 : Q)
  (Hk : In k doc_signals) (Hv : truthy v = true)
  (H1 : calculate_documentation_score (JObj d) = Ok s1)
  (H2 : calculate_documentation_score (JObj (dict_set k v d)) = Ok s2) :
  s1 <= s2.
Proof.
  destruct (calculate_documentation_score_obj d) as [p1 [E1 P1]].
  destruct (calculate_documentation_score_obj (dict_set k v d)) as [p2 [E2 P2]].
  rewrite H1 in E1. injection E1 as <-.
  rewrite H2 in E2. injection E2 as <-.
  rewrite P1, P2. unfold get_default. rewrite !assoc_get_dict_set.
  simpl in Hk.
  destruct Hk as [<-|[<-|[<-|[<-|[<-|[]]]]]]; simpl; rewrite ?Hv;
  apply doc_points_mono;
    match goal with
    | |- implb ?a ?b = true => destruct a; simpl; [destruct b|]; reflexivity
    end.
Qed.

Lemma calculate_documentation_score_monotone_witness :
  In "has_wiki" doc_signals /\ truthy (JBool true) = true /\
  calculate_documentation_score sample_repo = Ok 20%Q /\
  calculate_documentation_score (JObj (dict_set "has_wiki" (JBool true)
    (match sample_repo with JObj d => d | _ => [] end))) = Ok 35%Q /\
  (20 <= 35)%Q.
Proof.
  assert (Hk : In "has_wiki" doc_signals) by (simpl; tauto).
  assert (Hv : truthy (JBool true) = true) by reflexivity.
  assert (H1 : calculate_documentation_score sample_repo = Ok 20%Q)
    by (vm_compute; reflexivity).
  assert (H2 : calculate_documentation_score (JObj (dict_set "has_wiki" (JBool true)
    (match sample_repo with JObj d => d | _ => [] end))) = Ok 35%Q)
    by (vm_compute; reflexivity).
  split; [exact Hk|]. split; [exact Hv|]. split; [exact H1|]. split; [exact H2|].
  exact (calculate_documentation_score_monotone _ "has_wiki" (JBool true) 20 35 Hk Hv H1 H2).
Defined.

(** ** Activity score *)



Lemma activity_score_from_shape (pushed_at now : Z) (repo : json) (a : Q) :
  activity_score_from pushed_at now repo = Ok a ->
  exists b1 b2 b3 : bool,
    (forall now', activity_score_from pushed_at now' repo
                  = Ok (py_min (add_if b3 20 (add_if b2 20 (add_if b1 20
                          (recency_points (timedelta_days now' pushed_at))))) 100)) /\
    a = py_min (add_if b3 20 (add_if b2 20 (add_if b1 20
                  (recency_points (timedelta_days now pushed_at))))) 100.
Proof.
  unfold activity_score_from. intro H.
  destruct (py_get repo "open_issues_count" (JNum 0)) as [oi|]; [|discriminate H].
  cbn [res_bind] in H |- *.
  destruct (py_gt0 oi) as [b1|]; [|discriminate H]. cbn [res_bind] in H |- *.
  destruct (py_get repo "forks_count" (JNum 0)) as [fk|]; [|discriminate H].
  cbn [res_bind] in H |- *.
  destruct (py_gt0 fk) as [b2|]; [|discriminate H]. cbn [res_bind] in H |- *.
  destruct (py_get repo "watchers_count" (JNum 0)) as [wt|]; [|discriminate H].
  cbn [res_bind] in H |- *.
  destruct (py_gt0 wt) as [b3|]; [|discriminate H]. cbn [res_bind] in H |- *.
  exists b1, b2, b3. injection H as <-.
  split.
  - intro now'. unfold recency_points.
    destruct b1, b2, b3; reflexivity.
  - unfold recency_points. destruct b1, b2, b3; reflexivity.
Qed.

Lemma activity_points_bounds (days : Z) (b1 b2 b3 : bool) :
  10 <= py_min (add_if b3 20 (add_if b2 20 (add_if b1 20 (recency_points days)))) 100
  <= 100.
Proof.
  unfold recency_points, add_if.
  destruct (Z.ltb days 7), (Z.ltb days 30), (Z.ltb days 90), b1, b2, b3;
    vm_compute; split; discriminate.
Qed.

Lemma recency_points_antimono (d1 d2 : Z) :
  (d1 <= d2)%Z -> recency_points d2 <= recency_points d1.
Proof.
  intro L. unfold recency_points.
  destruct (Z.ltb_spec d1 7), (Z.ltb_spec d1 30), (Z.ltb_spec d1 90),
           (Z.ltb_spec d2 7), (Z.ltb_spec d2 30), (Z.ltb_spec d2 90);
    try lia; vm_compute; discriminate.
Qed.

Lemma py_min_100_mono (x y : Q) : x <= y -> py_min x 100 <= py_min y 100.
Proof.
  intro L. unfold py_min, qltb.
  destruct (Qle_bool x 100) eqn:Ex, (Qle_bool y 100) eqn:Ey; simpl.
  - apply Qle_bool_iff in Ex. apply Qle_bool_iff in Ey. lra.
  - apply Qle_bool_iff in Ex. lra.
  - apply Bool.not_true_iff_false in Ex. rewrite Qle_bool_iff in Ex.
    apply Qle_bool_iff in Ey. exfalso. apply Ex. lra.
  - lra.
Qed.

(** The effect of [calculate_activity_score]: it fails before reading the
    clock when [pushed_at] does not parse, and otherwise reads the clock
    exactly once. *)
Lemma calculate_activity_score_effect (repo : json) (w : World) (s : State) :
  calculate_activity_score repo w s =
  match res_bind (py_get repo "pushed_at" (JStr "2000-01-01")) strptime_github with
  | Ok p => ({| requested := requested s; ticks := S (ticks s) |},
             activity_score_from p (clock w (ticks s)) repo)
  | Exc e => (s, Exc e)
  end.
Proof.
  unfold calculate_activity_score, bind, lift, datetime_now.
  destruct (py_get repo "pushed_at" (JStr "2000-01-01")) as [pv|e]; simpl; [|reflexivity].
  destruct (strptime_github pv); reflexivity.
Qed.

Lemma add_if_mono (b : bool) (x q1 q2 : Q) : q1 <= q2 -> add_if b x q1 <= add_if b x q2.
Proof. destruct b; simpl; intro; lra. Qed.

Lemma timedelta_days_mono (p n1 n2 : Z) :
  (n1 <= n2)%Z -> (timedelta_days n1 p <= timedelta_days n2 p)%Z.
Proof.
  intro L. unfold timedelta_days, usec_per_day.
  apply Z.div_le_mono; lia.
Qed.

(** C9: whenever [calculate_activity_score] returns, [pushed_at] parsed and
    the score lies in [10, 100]: the recency bucket alone gives at least
    10, whatever the age of the last push. *)
Theorem calculate_activity_score_at_least_10
  (repo : json) (w : World) (s s' : State) (a : Q)
  (H : calculate_activity_score repo w s = (s', Ok a)) :
  (exists pv p, py_get repo "pushed_at" (JStr "2000-01-01") = Ok pv /\
                strptime_github pv = Ok p) /\
  10 <= a <= 100.
Proof.
  rewrite calculate_activity_score_effect in H.
  destruct (py_get repo "pushed_at" (JStr "2000-01-01")) as [pv|e];
    [|discriminate H]. cbn [res_bind] in H.
  destruct (strptime_github pv) as [p|e] eqn:Ep; [|discriminate H].
  injection H as _ Ha.
  split; [eauto|].
  destruct (activity_score_from_shape _ _ _ _ Ha) as (b1 & b2 & b3 & _ & ->).
  apply activity_points_bounds.
Qed.

Lemma calculate_activity_score_at_least_10_witness :
  calculate_activity_score sample_repo (world_at (datetime_of 2025 1 1 0 0 0))
    init_state = ({| requested := []; ticks := 1 |}, Ok 10%Q) /\
  10 <= 10 <= 100.
Proof.
  assert (H : calculate_activity_score sample_repo (world_at (datetime_of 2025 1 1 0 0 0))
                init_state = ({| requested := []; ticks := 1 |}, Ok 10%Q))
    by (vm_compute; reflexivity).
  split; [exact H|].
  exact (proj2 (calculate_activity_score_at_least_10 _ _ _ _ _ H)).
Defined.

(** C3 (claim as stated is refuted): the same repository record scored at
    two clock readings gives 40 one day after the push and 10 seven months
    later, so [calculate_activity_score] is not a function of its input. *)
Lemma activity_score_clock_counterexample :
  ~ (forall (repo : json) (w1 w2 : World) (s : State),
       snd (calculate_activity_score repo w1 s) =
       snd (calculate_activity_score repo w2 s)).
Proof.
  intro H.
  specialize (H sample_repo (world_at (datetime_of 2024 5 2 10 0 0))
                (world_at (datetime_of 2024 12 1 0 0 0)) init_state).
  vm_compute in H. discriminate H.
Qed.

(** C3 (amended): [calculate_activity_score] reads the clock exactly once
    ([datetime.now()], after parsing [pushed_at]) and its result is a
    function of the record and that reading, non-increasing as the reading
    grows; it performs no other effect. *)
Theorem calculate_activity_score_clock_dependence :
  (forall repo w s,
     calculate_activity_score repo w s =
     match res_bind (py_get repo "pushed_at" (JStr "2000-01-01")) strptime_github with
     | Ok p => ({| requested := requested s; ticks := S (ticks s) |},
                activity_score_from p (clock w (ticks s)) repo)
     | Exc e => (s, Exc e)
     end) /\
  (forall repo w1 w2 s s1 s2 a1 a2,
     (clock w1 (ticks s) <= clock w2 (ticks s))%Z ->
     calculate_activity_score repo w1 s = (s1, Ok a1) ->
     calculate_activity_score repo w2 s = (s2, Ok a2) ->
     a2 <= a1).
Proof.
  split; [exact calculate_activity_score_effect|].
  intros repo w1 w2 s s1 s2 a1 a2 L H1 H2.
  rewrite calculate_activity_score_effect in H1, H2.
  destruct (res_bind (py_get repo "pushed_at" (JStr "2000-01-01")) strptime_github)
    as [p|e]; [|discriminate H1].
  injection H1 as _ H1. injection H2 as _ H2.
  destruct (activity_score_from_shape _ _ _ _ H1) as (b1 & b2 & b3 & F & ->).
  rewrite F in H2. injection H2 as <-.
  apply py_min_100_mono, add_if_mono, add_if_mono, add_if_mono,
        recency_points_antimono, timedelta_days_mono, L.
Qed.

Lemma calculate_activity_score_clock_dependence_witness :
  calculate_activity_score sample_repo (world_at (datetime_of 2024 5 2 10 0 0)) init_state
    = ({| requested := []; ticks := 1 |}, Ok 40%Q) /\
  calculate_activity_score sample_repo (world_at (datetime_of 2024 12 1 0 0 0)) init_state
    = ({| requested := []; ticks := 1 |}, Ok 10%Q) /\
  10 <= 40.
Proof.
  assert (H1 : calculate_activity_score sample_repo (world_at (datetime_of 2024 5 2 10 0 0))
                 init_state = ({| requested := []; ticks := 1 |}, Ok 40%Q))
    by (vm_compute; reflexivity).
  assert (H2 : calculate_activity_score sample_repo (world_at (datetime_of 2024 12 1 0 0 0))
                 init_state = ({| requested := []; ticks := 1 |}, Ok 10%Q))
    by (vm_compute; reflexivity).
  assert (L : (clock (world_at (datetime_of 2024 5 2 10 0 0)) (ticks init_state)
               <= clock (world_at (datetime_of 2024 12 1 0 0 0)) (ticks init_state))%Z)
    by (vm_compute; discriminate).
  split; [exact H1|]. split; [exact H2|].
  exact (proj2 calculate_activity_score_clock_dependence _ _ _ _ _ _ _ _ L H1 H2).
Defined.

(** ** Portfolio score *)

Lemma round_half_even_le (r : Q) (m : Z) :
  r <= inject_Z m -> (round_half_even r <= m)%Z.
Proof.
  intro L. unfold round_half_even.
  pose proof (Qfloor_le r) as F1.
  assert (Fm : (Qfloor r <= m)%Z).
  { rewrite <- (Qfloor_Z m). apply Qfloor_resp_le, L. }
  set (f := Qfloor r) in *.
  assert (Hup : ~ r <= inject_Z f -> (f + 1 <= m)%Z).
  { intro N. destruct (Z.eq_dec f m) as [->|]; [|lia]. contradiction. }
  unfold qltb.
  destruct (Qle_bool (1 # 2) (r - inject_Z f)) eqn:E1; simpl; [|lia].
  apply Qle_bool_iff in E1.
  assert (N : ~ r <= inject_Z f) by lra.
  specialize (Hup N).
  destruct (Qle_bool (r - inject_Z f) (1 # 2)); simpl; [|lia].
  destruct (Z.even f); lia.
Qed.

Lemma round_half_even_ge (r : Q) (m : Z) :
  inject_Z m <= r -> (m <= round_half_even r)%Z.
Proof.
  intro L.
  assert (Fm : (m <= Qfloor r)%Z).
  { rewrite <- (Qfloor_Z m). apply Qfloor_resp_le, L. }
  unfold round_half_even.
  destruct (qltb _ _); [lia|]. destruct (qltb _ _); [lia|].
  destruct (Z.even _); lia.
Qed.

Lemma round1_bounds (q : Q) (lo hi : Z) :
  inject_Z lo <= q <= inject_Z hi -> inject_Z lo <= round1 q <= inject_Z hi.
Proof.
  intros [L H]. unfold round1.
  assert (A : (10 * lo <= round_half_even (q * 10))%Z).
  { apply round_half_even_ge. rewrite inject_Z_mult.
    replace (inject_Z 10) with (10 # 1) by reflexivity. lra. }
  assert (B : (round_half_even (q * 10) <= 10 * hi)%Z).
  { apply round_half_even_le. rewrite inject_Z_mult.
    replace (inject_Z 10) with (10 # 1) by reflexivity. lra. }
  unfold Qle; simpl; split; lia.
Qed.

Lemma py_min_le_l (a b : Q) : py_min a b <= a.
Proof.
  unfold py_min, qltb. destruct (Qle_bool a b) eqn:E; simpl; [lra|].
  apply Bool.not_true_iff_false in E. rewrite Qle_bool_iff in E. lra.
Qed.

Lemma py_min_ge (a b c : Q) : c <= a -> c <= b -> c <= py_min a b.
Proof. unfold py_min. destruct (qltb b a); auto. Qed.

Ltac ok_chain H :=
  repeat match type of H with
  | res_bind ?r _ = Ok _ =>
      let E := fresh "E" in destruct r eqn:E; [cbn [res_bind] in H | discriminate H]
  | (if ?b then _ else _) = Ok _ => destruct b
  | Ok _ = Ok _ => injection H as <-
  end.

Lemma portfolio_components_org_tech (data : json) (x : dims6) :
  portfolio_components data = Ok (Some x) ->
  0 <= org_dim x <= 60 /\ 0 <= tech_dim x <= 40.
Proof.
  unfold portfolio_components. intro H.
  destruct (_ || _)%bool; [discriminate H|].
  ok_chain H; try discriminate H.
  simpl. split.
  - repeat match goal with |- context [if ?b then _ else _] => destruct b end; lra.
  - split.
    + apply (Qplus_le_r 0 _ 0).
      apply py_min_ge; [lra|].
      match goal with |- _ <= inject_Z ?z * _ =>
        assert (0 <= inject_Z z) by (unfold Qle; simpl; lia) end.
      lra.
    + pose proof (py_min_le_l 40 (inject_Z (Z.of_nat (length l0)) * 8)). lra.
Qed.

(** C10: in every non-empty dimension map returned by
    [calculate_portfolio_score], Repository Organization is at most 60 and
    Technical Depth at most 40 (both are at least 0). *)
Theorem portfolio_org_tech_submaximal (data : json) (s : Q) (dims : list (string * Q))
  (H : calculate_portfolio_score data = Ok (s, dims)) (Hne : dims <> []) :
  (exists o, dim_lookup dims "Repository Organization" = Ok o /\ 0 <= o <= 60) /\
  (exists t, dim_lookup dims "Technical Depth" = Ok t /\ 0 <= t <= 40).
Proof.
  unfold calculate_portfolio_score in H.
  destruct (portfolio_components data) as [[x|]|e] eqn:E; simpl in H; try discriminate H.
  - injection H as _ <-.
    destruct (portfolio_components_org_tech _ _ E) as [O T].
    split; eexists; (split; [reflexivity|]).
    + apply (round1_bounds _ 0 60). exact O.
    + apply (round1_bounds _ 0 40). exact T.
  - injection H as _ <-. contradiction.
Qed.


Lemma portfolio_org_tech_submaximal_witness :
  exists s dims, calculate_portfolio_score two_repo_data = Ok (s, dims) /\ dims <> [] /\
  exists o, dim_lookup dims "Repository Organization" = Ok o /\ 0 <= o <= 60.
Proof.
  destruct (calculate_portfolio_score two_repo_data) as [[s dims]|e] eqn:E;
    [| vm_compute in E; discriminate E].
  assert (Hne : dims <> []).
  { vm_compute in E. injection E as _ <-. discriminate. }
  exists s, dims. split; [reflexivity|]. split; [exact Hne|].
  exact (proj1 (portfolio_org_tech_submaximal _ _ _ E Hne)).
Defined.

Lemma portfolio_final_weights (x : dims6) :
  portfolio_final x ==
  doc_dim x * (20 # 100) + code_dim x * (20 # 100) + activity_dim x * (15 # 100) +
  org_dim x * (15 # 100) + impact_dim x * (15 # 100) + tech_dim x * (15 # 100).
Proof. reflexivity. Qed.

(** C6: the six weights add up to exactly 1, and when the six dimension
    values each lie in [0, 100] the (rounded) portfolio score returned by
    [calculate_portfolio_score] lies in [0, 100]. *)
Theorem portfolio_weights_convex :
  fold_right Qplus 0 (map snd weights) == 1 /\
  (forall x, dims_in_range x -> 0 <= round1 (portfolio_final x) <= 100) /\
  (forall data x s dims,
     portfolio_components data = Ok (Some x) -> dims_in_range x ->
     calculate_portfolio_score data = Ok (s, dims) -> 0 <= s <= 100).
Proof.
  assert (F : forall x, dims_in_range x -> 0 <= round1 (portfolio_final x) <= 100).
  { intros x (D & C & A & O & I & T).
    apply (round1_bounds _ 0 100).
    rewrite portfolio_final_weights.
    change (inject_Z 0) with 0. change (inject_Z 100) with 100.
    lra. }
  split; [reflexivity|]. split; [exact F|].
  intros data x s dims E R H.
  unfold calculate_portfolio_score in H. rewrite E in H. simpl in H.
  injection H as <- _. apply F, R.
Qed.

Lemma portfolio_weights_convex_witness :
  exists s dims, calculate_portfolio_score two_repo_data = Ok (s, dims) /\ 0 <= s <= 100.
Proof.
  destruct (portfolio_components two_repo_data) as [[x|]|e] eqn:E;
    [| vm_compute in E; discriminate E | vm_compute in E; discriminate E].
  assert (R : dims_in_range x).
  { vm_compute in E. injection E as <-.
    unfold dims_in_range; simpl; vm_compute; repeat split; discriminate. }
  exists (round1 (portfolio_final x)), (dimension_scores_of x).
  assert (H : calculate_portfolio_score two_repo_data
              = Ok (round1 (portfolio_final x), dimension_scores_of x))
    by (unfold calculate_portfolio_score; rewrite E; reflexivity).
  split; [exact H|].
  exact (proj2 (proj2 portfolio_weights_convex) _ _ _ _ E R H).
Defined.

(** ** Recommendations *)

Lemma repo_recs_loop_step (repo : json) (rest : list json) (acc : list recommendation) :
  repo_recs_loop (repo :: rest) acc =
  res_bind (repo_recs repo) (fun r => repo_recs_loop rest (acc ++ r)%list).
Proof.
  cbn [repo_recs_loop]. unfold repo_recs, res_bind.
  repeat match goal with
  | |- context [if ?b then _ else _] => destruct b
  | |- context [match ?x with Ok _ => _ | Exc _ => _ end] =>
      lazymatch x with
      | match _ with _ => _ end => fail
      | _ => destruct x
      end
  end;
  rewrite ?app_nil_r, ?app_nil_l, <- ?app_assoc; reflexivity.
Qed.

Lemma repo_recs_loop_concat (items : list json) (acc : list recommendation) :
  repo_recs_loop items acc = res_bind (per_repo_recs items) (fun r => Ok (acc ++ r)%list).
Proof.
  revert acc. induction items as [|repo rest IH]; intro acc.
  - simpl. rewrite app_nil_r. reflexivity.
  - rewrite repo_recs_loop_step. cbn [per_repo_recs].
    destruct (repo_recs repo) as [r|e]; simpl; [|reflexivity].
    rewrite IH. destruct (per_repo_recs rest); simpl; [|reflexivity].
    rewrite app_assoc. reflexivity.
Qed.

(** C7: [get_actionable_recommendations] returns exactly the first five
    of the recommendations in evaluation order (portfolio-wide rules, then
    each repository's rules in fetch order), so never more than five, and
    exactly five whenever at least five rules fire. *)
Theorem recommendations_first_five (data : json) (dims : list (string * Q)) :
  get_actionable_recommendations data dims =
    res_bind (recommendations_in_evaluation_order data dims) (fun all => Ok (firstn 5 all)) /\
  (forall recs, get_actionable_recommendations data dims = Ok recs ->
     exists all, recommendations_in_evaluation_order data dims = Ok all /\
       recs = firstn 5 all /\ length recs = Nat.min 5 (length all) /\ (length recs <= 5)%nat).
Proof.
  assert (E : get_actionable_recommendations data dims =
    res_bind (recommendations_in_evaluation_order data dims) (fun all => Ok (firstn 5 all))).
  { unfold get_actionable_recommendations, recommendations_in_evaluation_order,
      portfolio_wide_recs.
    destruct (dim_lookup dims "Documentation Quality") as [dq|e]; simpl; [|reflexivity].
    destruct (dim_lookup dims "Activity Consistency") as [ac|e]; simpl; [|reflexivity].
    destruct (py_get data "repos" (JArr [])) as [repos|e]; simpl; [|reflexivity].
    destruct (py_iter repos) as [items|e]; simpl; [|reflexivity].
    rewrite repo_recs_loop_concat.
    destruct (per_repo_recs items); simpl; [|reflexivity].
    destruct (qltb dq 60), (qltb ac 50); reflexivity. }
  split; [exact E|].
  intros recs H. rewrite E in H.
  destruct (recommendations_in_evaluation_order data dims) as [all|e]; [|discriminate H].
  injection H as Hr. subst recs. exists all. split; [reflexivity|]. split; [reflexivity|].
  assert (L := length_firstn 5 all). split; [exact L|].
  change (length (firstn 5 all) <= 5)%nat. rewrite L. lia.
Qed.

Lemma recommendations_first_five_witness :
  recommendations_in_evaluation_order six_rule_data six_rule_dims =
    Ok [rec_poor_doc; rec_inconsistent; rec_missing_doc (JStr "a"); rec_low_impact (JStr "a");
        rec_missing_doc (JStr "b"); rec_low_impact (JStr "b")] /\
  get_actionable_recommendations six_rule_data six_rule_dims =
    Ok [rec_poor_doc; rec_inconsistent; rec_missing_doc (JStr "a"); rec_low_impact (JStr "a");
        rec_missing_doc (JStr "b")].
Proof.
  assert (A : recommendations_in_evaluation_order six_rule_data six_rule_dims =
    Ok [rec_poor_doc; rec_inconsistent; rec_missing_doc (JStr "a"); rec_low_impact (JStr "a");
        rec_missing_doc (JStr "b"); rec_low_impact (JStr "b")]) by (vm_compute; reflexivity).
  split; [exact A|].
  rewrite (proj1 (recommendations_first_five six_rule_data six_rule_dims)), A.
  reflexivity.
Defined.

(** ** Fetcher *)

Lemma py_iter_truthy_nonempty (v : json) (items : list json) :
  truthy v = true -> py_iter v = Ok items -> items <> [].
Proof.
  destruct v as [| | |s|l|d]; simpl; intros T I; try discriminate I;
    injection I as <-.
  - destruct s; [discriminate T | discriminate].
  - destruct l; [discriminate T | discriminate].
  - destruct d; [discriminate T | discriminate].
Qed.

(** The fuel of [fetch_pages] is never the reason the loop stops: with at
    least [50 - len(repos)] rounds left, one more changes nothing. *)
Lemma fetch_pages_fuel (username : string) (n : nat) :
  forall page repos w s, (50 - length repos <= n)%nat ->
  fetch_pages username (S n) page repos w s = fetch_pages username n page repos w s.
Proof.
  induction n as [|n IH]; intros page repos w s L.
  - cbn [fetch_pages].
    destruct (Nat.ltb_spec (length repos) 50); [lia | reflexivity].
  - cbn [fetch_pages].
    destruct (Nat.ltb (length repos) 50); [|reflexivity].
    unfold bind, http_get, lift.
    destruct (net w (URepos username page)) as [|code body]; [reflexivity|].
    destruct (negb (Z.eqb code 200)); [reflexivity|].
    destruct (resp_json body) as [pr|e]; [|reflexivity].
    destruct (truthy pr) eqn:T; simpl; [|reflexivity].
    destruct (py_iter pr) as [items|e] eqn:I; [|reflexivity].
    apply IH.
    pose proof (py_iter_truthy_nonempty _ _ T I) as NE.
    assert (P : (0 < length items)%nat) by (destruct items; [contradiction | simpl; lia]).
    rewrite length_app. lia.
Qed.

(** C4 (code bug): the loop condition is checked only before each page of
    30, so a user with sixty repositories gets a bundle of 60 (pages 1 and
    2 are requested, then the loop stops). *)
Theorem fetch_returns_sixty_repos :
  (exists user repos orgs,
     run (get_enhanced_github_data "octocat") sixty_repo_world
     = Ok (FBundle user repos orgs) /\ length repos = 60%nat) /\
  repo_pages_requested
    (requested (fst (get_enhanced_github_data "octocat" sixty_repo_world init_state)))
  = [1; 2]%Z.
Proof.
  split; [|vm_compute; reflexivity].
  vm_compute. do 3 eexists. split; [reflexivity|]. reflexivity.
Qed.

(** C2 (code bug): the languages request is the one enrichment call made
    outside any local [try]; when it raises, the whole fetch returns the
    ["ERROR"] sentinel, while a raising README or commit-activity call, or
    a non-200 languages answer, leaves the bundle in place with the field
    empty. *)
Theorem enrichment_language_exception_aborts_fetch :
  run (get_enhanced_github_data "octocat") lang_call_raises = Ok FError /\
  (exists user repos orgs,
     run (get_enhanced_github_data "octocat")
         (gh_world (gh_net one_repo_page RRaise (RResp 500 None) RRaise))
     = Ok (FBundle user repos orgs) /\
     map (fun r => (py_get r "readme_exists" JNull, py_get r "languages" JNull,
                    py_get r "commit_activity" (JBool true))) repos
     = [(Ok (JBool false), Ok (JObj []), Ok JNull)]).
Proof.
  split; [vm_compute; reflexivity|].
  vm_compute. do 3 eexists. split; [reflexivity|]. reflexivity.
Qed.

(** ** Further properties: helpers of the page *)


Lemma model_loop_flash (ms : list model_info) (raises : bool) (n : string) :
  model_loop ms raises = Ok (Some n) -> py_in_str "flash" n = true.
Proof.
  induction ms as [|m ms IH]; simpl.
  - destruct raises; discriminate.
  - destruct (existsb _ _); [|exact IH].
    destruct (py_in_str "flash" (m_name m)) eqn:F; [|exact IH].
    intro E. injection E as <-. exact F.
Qed.

Lemma model_loop_find (ms : list model_info) (raises : bool) :
  match model_loop ms raises with
  | Ok (Some n) => Some n
  | _ => None
  end =
  match find (fun m => existsb (String.eqb "generateContent") (m_methods m)
                       && py_in_str "flash" (m_name m))%bool ms with
  | Some m => Some (m_name m)
  | None => None
  end.
Proof.
  induction ms as [|m ms IH]; simpl.
  - destruct raises; reflexivity.
  - destruct (existsb _ _); simpl; [|exact IH].
    destruct (py_in_str "flash" (m_name m)); [reflexivity | exact IH].
Qed.

(** [get_working_model]: it returns [None] exactly when [GEMINI_KEY] is
    unset or empty, and every model name it returns contains ['flash']
    (the fallback ['models/gemini-1.5-flash'] included). *)
Theorem get_working_model_flash (key : option string) (l : model_listing) :
  (get_working_model key l = None <-> key = None \/ key = Some EmptyString) /\
  (forall n, get_working_model key l = Some n -> py_in_str "flash" n = true).
Proof.
  assert (D : py_in_str "flash" default_model = true) by (vm_compute; reflexivity).
  unfold get_working_model. split.
  - destruct key as [k|]; [|tauto].
    destruct (String.eqb_spec k EmptyString) as [->|N].
    + tauto.
    + split; [|intros [E|E]; [discriminate E | injection E as E; contradiction]].
      destruct (model_loop _ _) as [[n|]|e]; discriminate.
  - intro n. destruct key as [k|]; [|discriminate].
    destruct (String.eqb k EmptyString); [discriminate|].
    destruct (model_loop _ _) as [[n'|]|e] eqn:E; intro H; injection H as <-;
      [exact (model_loop_flash _ _ _ E) | exact D | exact D].
Qed.

(** [get_working_model], given a key: the first listed model that supports
    [generateContent] and whose name contains ['flash'], else the fallback;
    whether the listing fails after the models it yields makes no
    difference. *)
Theorem get_working_model_first_match (k : string) (l : model_listing)
  (Hk : k <> EmptyString) :
  get_working_model (Some k) l =
  Some (match find (fun m => existsb (String.eqb "generateContent") (m_methods m)
                             && py_in_str "flash" (m_name m))%bool (listed l) with
        | Some m => m_name m
        | None => default_model
        end).
Proof.
  unfold get_working_model.
  destruct (String.eqb_spec k EmptyString) as [Ek|Nk]; [contradiction|].
  pose proof (model_loop_find (listed l) (listing_raises l)) as F.
  destruct (model_loop _ _) as [[n|]|e];
    destruct (find _ _) as [m|]; try discriminate F; try reflexivity.
  injection F as ->. reflexivity.
Qed.

Lemma get_working_model_first_match_witness :
  get_working_model (Some "key")
    {| listed := [{| m_name := "models/gemini-pro"; m_methods := ["generateContent"] |};
                  {| m_name := "models/gemini-2.0-flash"; m_methods := ["generateContent"] |}];
       listing_raises := true |} = Some "models/gemini-2.0-flash".
Proof.
  assert (Hk : "key" <> EmptyString) by discriminate.
  rewrite (get_working_model_first_match "key" _ Hk). vm_compute. reflexivity.
Defined.

(** ** Further properties: the fetcher *)

(** [get_enhanced_github_data] with [GITHUB_TOKEN] unset or empty returns
    ["NO_TOKEN"] before making any request and without reading the
    clock. *)
Theorem get_enhanced_github_data_no_token (username : string) (w : World) (s : State)
  (Ht : github_token w = None \/ github_token w = Some EmptyString) :
  get_enhanced_github_data username w s = (s, Ok FNoToken).
Proof.
  unfold get_enhanced_github_data, bind, ask_world.
  destruct Ht as [E|E]; rewrite E; reflexivity.
Qed.

Lemma get_enhanced_github_data_no_token_witness :
  get_enhanced_github_data "octocat"
    {| github_token := None; net := gh_net sixty_repo_pages RRaise RRaise RRaise;
       clock := fun _ => 0%Z; b64_utf8_prefix := fun _ => None |} init_state
  = (init_state, Ok FNoToken).
Proof.
  apply get_enhanced_github_data_no_token. left. reflexivity.
Defined.

(** [get_enhanced_github_data] never raises: every exception after the
    token check is turned into the ["ERROR"] sentinel. *)
Theorem get_enhanced_github_data_never_raises (username : string) (w : World) (s : State) :
  exists s' r, get_enhanced_github_data username w s = (s', Ok r).
Proof.
  unfold get_enhanced_github_data, bind at 1, ask_world.
  destruct (github_token w) as [t|]; [|eexists; eexists; reflexivity].
  destruct (String.eqb t EmptyString); [eexists; eexists; reflexivity|].
  unfold try_except.
  match goal with |- context [match ?m w s with _ => _ end] =>
    destruct (m w s) as [s1 [a|e]] end; eexists; eexists; reflexivity.
Qed.

(** With a token, a failing or non-200 user lookup gives ["ERROR"] after
    that single request. *)
Theorem get_enhanced_github_data_user_lookup_fails (username t : string)
  (w : World) (s : State)
  (Ht : github_token w = Some t) (Hne : t <> EmptyString)
  (Hu : net w (UUser username) = RRaise \/
        exists code body, net w (UUser username) = RResp code body /\ code <> 200%Z) :
  get_enhanced_github_data username w s =
  ({| requested := requested s ++ [UUser username]; ticks := ticks s |}, Ok FError).
Proof.
  unfold get_enhanced_github_data, bind at 1, ask_world. rewrite Ht.
  destruct (String.eqb_spec t EmptyString); [contradiction|].
  unfold try_except, bind at 1, http_get.
  destruct Hu as [E | (code & body & E & N)]; rewrite E; [reflexivity|].
  destruct (Z.eqb_spec code 200); [contradiction|]. reflexivity.
Qed.

Lemma get_enhanced_github_data_user_lookup_fails_witness :
  get_enhanced_github_data "ghost"
    (gh_world (fun u => match u with UUser _ => RResp 404 None | _ => RRaise end)) init_state
  = ({| requested := [UUser "ghost"]; ticks := 0 |}, Ok FError).
Proof.
  apply (get_enhanced_github_data_user_lookup_fails "ghost" "ghp_example"); [reflexivity | discriminate |].
  right. exists 404%Z, None. split; [reflexivity | discriminate].
Defined.

(** Closes a goal that matches on a status code known to differ from 200. *)
Ltac not_200 code :=
  let p := fresh "p" in
  destruct code as [|p|p]; try reflexivity;
  repeat (destruct p as [p|p|]; try reflexivity); try contradiction.

Lemma get_readme_content_effect (fn : json) (w : World) (s : State) :
  get_readme_content fn w s =
  ({| requested := requested s ++ [UReadme fn]; ticks := ticks s |},
   Ok (match net w (UReadme fn) with
       | RResp 200 (Some (JObj d)) =>
           match get_default d "content" (JStr EmptyString) with
           | JStr c => b64_utf8_prefix w c
           | _ => None
           end
       | _ => None
       end)).
Proof.
  unfold get_readme_content, try_except, bind, http_get, lift, ret, raise, ask_world,
    py_get, resp_json.
  destruct (net w (UReadme fn)) as [|code body]; [reflexivity|].
  destruct (Z.eqb_spec code 200) as [->|N].
  - destruct body as [j|]; [|reflexivity].
    destruct j; try reflexivity. unfold get_default.
    destruct (assoc_get "content" l) as [v|]; [destruct v|]; try reflexivity;
      match goal with |- context [b64_utf8_prefix w ?c] =>
        destruct (b64_utf8_prefix w c); reflexivity end.
  - not_200 code.
Qed.


Lemma get_commit_activity_effect (fn : json) (w : World) (s : State) :
  get_commit_activity fn w s =
  ({| requested := requested s ++ [UCommitActivity fn]; ticks := ticks s |},
   Ok (match net w (UCommitActivity fn) with
       | RResp 200 (Some v) => v
       | _ => JNull
       end)).
Proof.
  unfold get_commit_activity, try_except, bind, http_get, lift, ret.
  destruct (net w (UCommitActivity fn)) as [|code body]; [reflexivity|].
  destruct (Z.eqb_spec code 200) as [->|N].
  - destruct body; reflexivity.
  - not_200 code.
Qed.


(** ** Further properties: the enhancement loop *)

Lemma bind_ok {A B} (m : M A) (k : A -> M B) (w : World) (s s' : State) (b : B) :
  bind m k w s = (s', Ok b) -> exists s1 a, m w s = (s1, Ok a) /\ k a w s1 = (s', Ok b).
Proof.
  unfold bind. destruct (m w s) as [s1 [a|e]]; intro H; [eauto | discriminate H].
Qed.

Lemma lift_ok {A} (r : res A) (w : World) (s s' : State) (a : A) :
  lift r w s = (s', Ok a) -> r = Ok a /\ s' = s.
Proof. unfold lift. intro H. injection H as <- <-. split; reflexivity. Qed.

Lemma py_setitem_ok (x : json) (k : string) (v x' : json) :
  py_setitem x k v = Ok x' -> exists d, x = JObj d /\ x' = JObj (dict_set k v d).
Proof. destruct x; simpl; intro H; try discriminate H. injection H as <-. eauto. Qed.

Lemma calculate_documentation_score_bounds (x : json) (p : Q) :
  calculate_documentation_score x = Ok p -> 0 <= p <= 100.
Proof.
  destruct x as [| | | | |d]; try (simpl; discriminate).
  destruct (calculate_documentation_score_obj d) as [p' [E P]].
  intro H. rewrite H in E. injection E as <-. rewrite P. unfold doc_points, share.
  destruct (truthy _), (truthy _), (truthy _), (truthy _), (truthy _);
    vm_compute; split; discriminate.
Qed.

Lemma calculate_code_quality_score_bounds (x : json) (c : Q) :
  calculate_code_quality_score x = Ok c -> 0 <= c <= 100.
Proof.
  unfold calculate_code_quality_score. intro H.
  ok_chain H.
  repeat match goal with |- context [if ?b then _ else _] => destruct b end;
    vm_compute; split; discriminate.
Qed.

Ltac step H :=
  let s1 := fresh "s" in let a := fresh "a" in let H1 := fresh "H" in
  apply bind_ok in H; destruct H as (s1 & a & H1 & H); cbv beta iota in H.


Ltac not_in :=
  let I := fresh "I" in
  intro I; simpl in I; repeat (destruct I as [I|I]; [discriminate I|]); exact I.

Ltac keys_differ k Hk :=
  repeat match goal with
  | |- context [String.eqb k ?x] =>
      destruct (String.eqb_spec k x) as [->|_]; [exfalso; apply Hk; simpl; tauto|]
  end; reflexivity.

Lemma enhance_repo_spec (repo : json) (w : World) (s s' : State) (r' : json) :
  enhance_repo repo w s = (s', Ok r') ->
  exists d d', repo = JObj d /\ r' = JObj d' /\
    requested s' = (requested s ++ repo_requests r')%list /\ ticks s' = S (ticks s) /\
    (forall k, ~ In k enhancement_keys -> assoc_get k d' = assoc_get k d) /\
    enhanced_record d' /\
    (exists fn lu, assoc_get "full_name" d = Some fn /\ assoc_get "languages_url" d = Some lu /\
       requested s' = (requested s ++ [UReadme fn; ULanguages lu; UCommitActivity fn])%list).
Proof.
  unfold enhance_repo. intro H.
  apply bind_ok in H as (s1 & fn & H1 & H). apply lift_ok in H1 as [Efn ->].
  destruct repo as [| | | | |d]; try discriminate Efn.
  simpl in Efn. destruct (assoc_get "full_name" d) as [fn'|] eqn:Dfn; [|discriminate Efn].
  injection Efn as <-.
  apply bind_ok in H as (s2 & readme & H1 & H).
  rewrite get_readme_content_effect in H1. injection H1 as <- Hreadme.
  apply bind_ok in H as (s3 & r1 & H1 & H). apply lift_ok in H1 as [E1 ->].
  simpl in E1. injection E1 as <-.
  apply bind_ok in H as (s4 & r2 & H1 & H). apply lift_ok in H1 as [E2 ->].
  simpl in E2. injection E2 as <-.
  apply bind_ok in H as (s5 & lu & H1 & H). apply lift_ok in H1 as [Elu ->].
  cbn [py_index] in Elu. rewrite !assoc_get_dict_set in Elu. simpl in Elu.
  destruct (assoc_get "languages_url" d) as [lu'|] eqn:Dlu; [|discriminate Elu].
  injection Elu as <-.
  apply bind_ok in H as (s6 & cb & H1 & H).
  unfold http_get in H1. destruct (net w (ULanguages lu')) as [|code body]; [discriminate H1|].
  injection H1 as <- <-. cbv beta iota in H.
  apply bind_ok in H as (s7 & langs & H1 & H).
  assert (E7 : s7 = {| requested := (requested s ++ [UReadme fn'] ++ [ULanguages lu'])%list;
                       ticks := ticks s |}).
  { destruct (Z.eqb code 200); [apply lift_ok in H1 as [_ ->] | unfold ret in H1; injection H1 as <- _];
      simpl; rewrite <- app_assoc; reflexivity. }
  subst s7. clear H1.
  apply bind_ok in H as (s8 & r3 & H1 & H). apply lift_ok in H1 as [E3 ->].
  simpl in E3. injection E3 as <-.
  apply bind_ok in H as (s9 & n & H1 & H). apply lift_ok in H1 as [En ->].
  apply bind_ok in H as (s10 & r4 & H1 & H). apply lift_ok in H1 as [E4 ->].
  simpl in E4. injection E4 as <-.
  apply bind_ok in H as (s11 & commits & H1 & H).
  rewrite get_commit_activity_effect in H1. injection H1 as <- Hcommits.
  apply bind_ok in H as (s12 & r5 & H1 & H). apply lift_ok in H1 as [E5 ->].
  simpl in E5. injection E5 as <-.
  apply bind_ok in H as (s13 & ds & H1 & H). apply lift_ok in H1 as [Eds ->].
  apply bind_ok in H as (s14 & r6 & H1 & H). apply lift_ok in H1 as [E6 ->].
  simpl in E6. injection E6 as <-.
  apply bind_ok in H as (s15 & cs & H1 & H). apply lift_ok in H1 as [Ecs ->].
  apply bind_ok in H as (s16 & r7 & H1 & H). apply lift_ok in H1 as [E7' ->].
  simpl in E7'. injection E7' as <-.
  apply bind_ok in H as (s17 & a & H1 & H).
  rewrite calculate_activity_score_effect in H1.
  apply lift_ok in H as [E8 ->]. simpl in E8. injection E8 as <-.
  match goal with |- context [dict_set "activity_score" (JNum a) ?D7] => set (d7 := D7) in * end.
  assert (P7 : forall k, ~ In k enhancement_keys -> assoc_get k d7 = assoc_get k d).
  { intros k Hk. subst d7. rewrite !assoc_get_dict_set. keys_differ k Hk. }
  unfold py_get in H1 at 1. rewrite (P7 "pushed_at") in H1 by not_in.
  destruct (assoc_get "pushed_at" d) as [pv|] eqn:Dpv; [|vm_compute in H1; discriminate H1].
  cbn [res_bind] in H1.
  destruct (strptime_github pv) as [p|e] eqn:Ep; [|discriminate H1].
  injection H1 as <- Ha.
  set (d' := dict_set "activity_score" (JNum a) d7).
  assert (P' : forall k, ~ In k enhancement_keys -> assoc_get k d' = assoc_get k d).
  { intros k Hk. subst d'. rewrite assoc_get_dict_set, <- (P7 k Hk). keys_differ k Hk. }
  exists d, d'. split; [reflexivity|]. split; [reflexivity|].
  split.
  { unfold repo_requests.
    rewrite (P' "full_name") by not_in. rewrite (P' "languages_url") by not_in.
    rewrite Dfn, Dlu. simpl. rewrite <- !app_assoc. reflexivity. }
  split; [reflexivity|]. split; [exact P'|].
  split; [|exists fn', lu'; split; [exact Dfn|]; split; [exact Dlu|];
           simpl; rewrite <- app_assoc; reflexivity].
  subst d' d7. unfold enhanced_record. rewrite !assoc_get_dict_set. simpl.
  split; [|split; [|split; [|split; [|split]]]].
  - rewrite Dpv. eauto.
  - destruct readme as [t|]; [left; split; [reflexivity | eexists; reflexivity] | right; split; reflexivity].
  - eauto.
  - eexists. split; [reflexivity|]. exact (calculate_documentation_score_bounds _ _ Eds).
  - eexists. split; [reflexivity|]. exact (calculate_code_quality_score_bounds _ _ Ecs).
  - eexists. split; [reflexivity|].
    destruct (activity_score_from_shape _ _ _ _ Ha) as (b1 & b2 & b3 & _ & ->).
    apply activity_points_bounds.
Qed.

Lemma enhance_all_spec (repos : list json) : forall w s s' rs,
  enhance_all repos w s = (s', Ok rs) ->
  length rs = length repos /\ Forall enhanced rs /\
  requested s' = (requested s ++ flat_map repo_requests rs)%list /\
  ticks s' = (ticks s + length rs)%nat /\
  Forall2 (fun r r' => exists d d', r = JObj d /\ r' = JObj d' /\
             forall k, ~ In k enhancement_keys -> assoc_get k d' = assoc_get k d) repos rs.
Proof.
  induction repos as [|r rest IH]; intros w s s' rs H; cbn [enhance_all] in H.
  - unfold ret in H. injection H as <- <-. simpl. rewrite app_nil_r, Nat.add_0_r.
    repeat split; constructor.
  - apply bind_ok in H as (s1 & r' & H1 & H).
    apply bind_ok in H as (s2 & rs' & H2 & H).
    unfold ret in H. injection H as <- <-.
    destruct (enhance_repo_spec _ _ _ _ _ H1) as (d & d' & -> & -> & R1 & T1 & P1 & E1 & _).
    destruct (IH _ _ _ _ H2) as (L & F & R2 & T2 & F2).
    split; [simpl; rewrite L; reflexivity|].
    split; [constructor; [exact E1 | exact F]|].
    split; [rewrite R2, R1; simpl; rewrite <- app_assoc; reflexivity|].
    split; [rewrite T2, T1; simpl; lia|].
    constructor; [eauto 6 | exact F2].
Qed.

Lemma fetch_pages_log (username : string) (fuel : nat) :
  forall page repos w s s' r,
  fetch_pages username fuel page repos w s = (s', r) ->
  ticks s' = ticks s /\
  (exists k, (k <= fuel)%nat /\
     ((0 < fuel)%nat -> (length repos < 50)%nat -> (1 <= k)%nat) /\
     requested s' = (requested s ++
                     map (fun i => URepos username (page + Z.of_nat i)) (seq 0 k))%list) /\
  (forall rs, r = Ok rs -> exists extra, rs = (repos ++ extra)%list).
Proof.
  induction fuel as [|fuel IH]; intros page repos w s s' r H; cbn [fetch_pages] in H.
  - destruct (Nat.ltb _ 50); unfold ret in H; injection H as <- <-;
      (split; [reflexivity|]); (split; [exists 0%nat; simpl; rewrite app_nil_r;
        split; [lia | split; [lia | reflexivity]]|]);
      intros rs E; injection E as <-; exists []; rewrite app_nil_r; reflexivity.
  - destruct (Nat.ltb_spec (length repos) 50) as [Lt|Ge].
    + unfold bind at 1, http_get in H.
      assert (One : forall r0, r = r0 -> s' = {| requested := (requested s ++ [URepos username page])%list;
                                             ticks := ticks s |} ->
                (forall rs, r0 = Ok rs -> exists extra, rs = (repos ++ extra)%list) ->
                ticks s' = ticks s /\
                (exists k, (k <= S fuel)%nat /\
                   ((0 < S fuel)%nat -> (length repos < 50)%nat -> (1 <= k)%nat) /\
                   requested s' = (requested s ++
                     map (fun i => URepos username (page + Z.of_nat i)) (seq 0 k))%list) /\
                (forall rs, r = Ok rs -> exists extra, rs = (repos ++ extra)%list)).
      { intros r0 -> -> P. split; [reflexivity|]. split; [|exact P].
        exists 1%nat. simpl. rewrite Z.add_0_r. split; [lia | split; [lia | reflexivity]]. }
      destruct (net w (URepos username page)) as [|code body].
      * injection H as <- <-. apply (One _ eq_refl eq_refl). discriminate.
      * destruct (negb (Z.eqb code 200)).
        { unfold ret in H. injection H as <- <-. apply (One _ eq_refl eq_refl).
          intros rs E. injection E as <-. exists []. rewrite app_nil_r. reflexivity. }
        unfold bind, lift in H. destruct (resp_json body) as [pr|e].
        2: { injection H as <- <-. apply (One _ eq_refl eq_refl). discriminate. }
        destruct (negb (truthy pr)).
        { unfold ret in H. injection H as <- <-. apply (One _ eq_refl eq_refl).
          intros rs E. injection E as <-. exists []. rewrite app_nil_r. reflexivity. }
        destruct (py_iter pr) as [items|e].
        2: { injection H as <- <-. apply (One _ eq_refl eq_refl). discriminate. }
        destruct (IH _ _ _ _ _ _ H) as (T & (k & Lk & _ & Rk) & P).
        split; [exact T|]. split.
        { exists (S k). split; [lia|]. split; [lia|]. rewrite Rk. simpl.
          rewrite <- app_assoc. simpl. rewrite Z.add_0_r. f_equal. f_equal.
          rewrite <- seq_shift, map_map. apply map_ext. intro i. f_equal. lia. }
        intros rs E. destruct (P rs E) as [extra ->]. exists (items ++ extra)%list.
        rewrite app_assoc. reflexivity.
    + unfold ret in H. injection H as <- <-.
      split; [reflexivity|]. split.
      { exists 0%nat. simpl. rewrite app_nil_r. split; [lia | split; [lia | reflexivity]]. }
      intros rs E. injection E as <-. exists []. rewrite app_nil_r. reflexivity.
Qed.

Lemma fetch_pages_bound (username : string) (w : World)
  (Hp : forall p v items, net w (URepos username p) = RResp 200 (Some v) ->
          py_iter v = Ok items -> (length items <= 30)%nat) :
  forall fuel page repos s s' rs, (length repos <= 79)%nat ->
  fetch_pages username fuel page repos w s = (s', Ok rs) -> (length rs <= 79)%nat.
Proof.
  induction fuel as [|fuel IH]; intros page repos s s' rs L H; cbn [fetch_pages] in H.
  - destruct (Nat.ltb _ 50); unfold ret in H; injection H as _ <-; exact L.
  - destruct (Nat.ltb_spec (length repos) 50) as [Lt|Ge].
    + unfold bind at 1, http_get in H.
      destruct (net w (URepos username page)) as [|code body] eqn:N; [discriminate H|].
      destruct (Z.eqb_spec code 200) as [->|Nc]; cbn [negb] in H;
        [|unfold ret in H; injection H as _ <-; exact L].
      unfold bind, lift in H.
      destruct body as [pr|]; [|discriminate H]. cbn [resp_json] in H.
      destruct (negb (truthy pr)); [unfold ret in H; injection H as _ <-; exact L|].
      destruct (py_iter pr) as [items|e] eqn:I; [|discriminate H].
      refine (IH _ _ _ _ _ _ H). rewrite length_app.
      pose proof (Hp page pr items N I). lia.
    + unfold ret in H. injection H as _ <-. exact L.
Qed.

Lemma get_enhanced_github_data_bundle (username : string) (w : World) (s s' : State)
  (user orgs : json) (repos : list json) :
  get_enhanced_github_data username w s = (s', Ok (FBundle user repos orgs)) ->
  exists t s2 s3 raws,
    github_token w = Some t /\ t <> EmptyString /\
    net w (UUser username) = RResp 200 (Some user) /\
    fetch_pages username 50 1 [] w
      {| requested := (requested s ++ [UUser username])%list; ticks := ticks s |}
      = (s2, Ok raws) /\
    enhance_all raws w s2 = (s3, Ok repos) /\
    s' = {| requested := (requested s3 ++ [UOrgs username])%list; ticks := ticks s3 |} /\
    (forall code body, net w (UOrgs username) = RResp code body ->
       code <> 200%Z -> orgs = JArr []).
Proof.
  unfold get_enhanced_github_data, bind at 1, ask_world. intro H.
  destruct (github_token w) as [t|] eqn:Et; [|discriminate H].
  destruct (String.eqb_spec t EmptyString) as [Ee|Ne]; [discriminate H|].
  unfold try_except in H.
  match type of H with (match ?m w s with _ => _ end) = _ =>
    destruct (m w s) as [s1 [r|e]] eqn:I end;
    [|unfold ret in H; discriminate H].
  injection H as -> ->.
  apply bind_ok in I as (s1 & cb & H1 & I).
  unfold http_get in H1. destruct (net w (UUser username)) as [|ucode ubody] eqn:Nu;
    [discriminate H1|]. injection H1 as <- <-. cbv beta iota in I.
  destruct (Z.eqb_spec ucode 200) as [->|Nc]; cbn [negb] in I;
    [|unfold ret in I; discriminate I].
  apply bind_ok in I as (s2 & user' & H2 & I). apply lift_ok in H2 as [Eu ->].
  destruct ubody as [u|]; [|discriminate Eu]. injection Eu as <-.
  apply bind_ok in I as (s2 & raws & H3 & I).
  apply bind_ok in I as (s3 & repos' & H4 & I).
  apply bind_ok in I as (s4 & ob & H5 & I).
  unfold http_get in H5. destruct (net w (UOrgs username)) as [|ocode obody] eqn:No;
    [discriminate H5|]. injection H5 as <- <-. cbv beta iota in I.
  apply bind_ok in I as (s5 & orgs' & H6 & I).
  unfold ret in I. injection I as <- <- <- <-.
  exists t, s2, s3, raws.
  split; [reflexivity|]. split; [exact Ne|]. split; [reflexivity|].
  split; [exact H3|]. split; [exact H4|].
  assert (E5 : s5 = {| requested := (requested s3 ++ [UOrgs username])%list;
                       ticks := ticks s3 |} /\
               (ocode <> 200%Z -> orgs' = JArr [])).
  { destruct (Z.eqb_spec ocode 200);
      [apply lift_ok in H6 as [_ ->] | unfold ret in H6; injection H6 as <- <-];
      split; auto; intro; contradiction. }
  destruct E5 as [-> O]. split; [reflexivity|].
  intros code body E N. injection E as -> ->. exact (O N).
Qed.

(** The enhancement loop body keeps every field of the raw repository
    record other than the eight it writes ([readme_exists],
    [readme_preview], [languages], [languages_count], [commit_activity],
    [doc_score], [code_score], [activity_score]), makes exactly three
    requests (README, languages, commit activity, in this order) and reads
    the clock once. *)
Theorem enhance_repo_keeps_raw_fields (repo : json) (w : World) (s s' : State) (r' : json)
  (H : enhance_repo repo w s = (s', Ok r')) :
  exists d d', repo = JObj d /\ r' = JObj d' /\
    (forall k, ~ In k enhancement_keys -> assoc_get k d' = assoc_get k d) /\
    (exists fn lu, assoc_get "full_name" d = Some fn /\ assoc_get "languages_url" d = Some lu /\
       requested s' = (requested s ++ [UReadme fn; ULanguages lu; UCommitActivity fn])%list) /\
    ticks s' = S (ticks s).
Proof.
  destruct (enhance_repo_spec _ _ _ _ _ H) as (d & d' & -> & -> & _ & T & P & _ & F).
  exists d, d'. split; [reflexivity|]. split; [reflexivity|]. split; [exact P|].
  split; [exact F | exact T].
Qed.

Lemma enhance_repo_keeps_raw_fields_witness :
  exists s' r', enhance_repo sample_repo (gh_world (gh_net one_repo_page (RResp 404 None)
                    (ok_json (JObj [("C", JNum 5)])) (RResp 202 None))) init_state = (s', Ok r') /\
  exists d d', sample_repo = JObj d /\ r' = JObj d' /\
    (forall k, ~ In k enhancement_keys -> assoc_get k d' = assoc_get k d) /\
    (exists fn lu, assoc_get "full_name" d = Some fn /\ assoc_get "languages_url" d = Some lu /\
       requested s' = (requested init_state ++ [UReadme fn; ULanguages lu; UCommitActivity fn])%list) /\
    ticks s' = S (ticks init_state).
Proof.
  destruct (enhance_repo sample_repo (gh_world (gh_net one_repo_page (RResp 404 None)
              (ok_json (JObj [("C", JNum 5)])) (RResp 202 None))) init_state)
    as [s' [r'|e]] eqn:E; [|vm_compute in E; discriminate E].
  exists s', r'. split; [reflexivity|].
  exact (enhance_repo_keeps_raw_fields _ _ _ _ _ E).
Defined.

(** Every repository record of a bundle returned by
    [get_enhanced_github_data] is a dict whose [pushed_at] parses with the
    format ['%Y-%m-%dT%H:%M:%SZ'], whose [readme_exists] is [True] exactly
    when [readme_preview] holds a string (and [False] with [None]
    otherwise), whose [languages_count] is [len(languages)], whose
    [doc_score] and [code_score] lie in [0, 100] and whose [activity_score]
    lies in [10, 100]. *)
Theorem get_enhanced_github_data_records (username : string) (w : World) (s s' : State)
  (user orgs : json) (repos : list json)
  (H : get_enhanced_github_data username w s = (s', Ok (FBundle user repos orgs))) :
  Forall enhanced repos.
Proof.
  destruct (get_enhanced_github_data_bundle _ _ _ _ _ _ _ H)
    as (t & s2 & s3 & raws & _ & _ & _ & _ & E & _ & _).
  exact (proj1 (proj2 (enhance_all_spec _ _ _ _ _ E))).
Qed.

Lemma get_enhanced_github_data_records_witness :
  exists s' user repos orgs,
    get_enhanced_github_data "octocat" one_repo_world init_state
    = (s', Ok (FBundle user repos orgs)) /\ Forall enhanced repos.
Proof.
  destruct (get_enhanced_github_data "octocat" one_repo_world init_state)
    as [s' [[| |u rs o]|e]] eqn:E; try (vm_compute in E; discriminate E).
  exists s', u, rs, o. split; [reflexivity|].
  exact (get_enhanced_github_data_records _ _ _ _ _ _ _ E).
Defined.

(** The requests of a run of [get_enhanced_github_data] that returns a
    bundle: the user profile (whose 200 answer is the bundle's [user]),
    the repository pages 1, 2, ..., k for some k between 1 and 50, the
    README, languages and commit-activity requests of each repository in
    order, and the organisations; the clock is read once per
    repository. *)
Theorem get_enhanced_github_data_requests (username : string) (w : World) (s s' : State)
  (user orgs : json) (repos : list json)
  (H : get_enhanced_github_data username w s = (s', Ok (FBundle user repos orgs))) :
  net w (UUser username) = RResp 200 (Some user) /\
  exists k, (1 <= k <= 50)%nat /\
    requested s' = (requested s ++ UUser username ::
                    map (fun i => URepos username (1 + Z.of_nat i)) (seq 0 k) ++
                    flat_map repo_requests repos ++ [UOrgs username])%list /\
    ticks s' = (ticks s + length repos)%nat.
Proof.
  destruct (get_enhanced_github_data_bundle _ _ _ _ _ _ _ H)
    as (t & s2 & s3 & raws & _ & _ & U & F & E & -> & _).
  split; [exact U|].
  destruct (fetch_pages_log _ _ _ _ _ _ _ _ F) as (T1 & (k & Lk & K1 & R1) & _).
  destruct (enhance_all_spec _ _ _ _ _ E) as (_ & _ & R2 & T2 & _).
  exists k. split; [split; [apply K1; simpl; lia | exact Lk]|].
  simpl. split.
  - rewrite R2, R1. simpl. rewrite <- !app_assoc. reflexivity.
  - rewrite T2, T1. reflexivity.
Qed.

Lemma get_enhanced_github_data_requests_witness :
  exists s' user repos orgs,
    get_enhanced_github_data "octocat" one_repo_world init_state
    = (s', Ok (FBundle user repos orgs)) /\
    net one_repo_world (UUser "octocat") = RResp 200 (Some user) /\
    exists k, (1 <= k <= 50)%nat /\
      requested s' = (requested init_state ++ UUser "octocat" ::
                      map (fun i => URepos "octocat" (1 + Z.of_nat i)) (seq 0 k) ++
                      flat_map repo_requests repos ++ [UOrgs "octocat"])%list /\
      ticks s' = (ticks init_state + length repos)%nat.
Proof.
  destruct (get_enhanced_github_data "octocat" one_repo_world init_state)
    as [s' [[| |u rs o]|e]] eqn:E; try (vm_compute in E; discriminate E).
  exists s', u, rs, o. split; [reflexivity|].
  exact (get_enhanced_github_data_requests _ _ _ _ _ _ _ E).
Defined.

(** If every 200 answer to a repository-page request holds at most 30
    items (the [per_page=30] of the request), a bundle returned by
    [get_enhanced_github_data] has at most 79 repositories: the loop
    [while len(repos) < 50] can start a last page at 49. *)
Theorem get_enhanced_github_data_at_most_79 (username : string) (w : World) (s s' : State)
  (user orgs : json) (repos : list json)
  (Hp : forall p v items, net w (URepos username p) = RResp 200 (Some v) ->
          py_iter v = Ok items -> (length items <= 30)%nat)
  (H : get_enhanced_github_data username w s = (s', Ok (FBundle user repos orgs))) :
  (length repos <= 79)%nat.
Proof.
  destruct (get_enhanced_github_data_bundle _ _ _ _ _ _ _ H)
    as (t & s2 & s3 & raws & _ & _ & _ & F & E & _ & _).
  destruct (enhance_all_spec _ _ _ _ _ E) as (L & _).
  rewrite L. refine (fetch_pages_bound _ _ Hp _ _ _ _ _ _ _ F). simpl. lia.
Qed.

Lemma get_enhanced_github_data_at_most_79_witness :
  exists s' user repos orgs,
    get_enhanced_github_data "octocat" sixty_repo_world init_state
    = (s', Ok (FBundle user repos orgs)) /\ (length repos <= 79)%nat.
Proof.
  assert (Hp : forall p v items, net sixty_repo_world (URepos "octocat" p) = RResp 200 (Some v) ->
                 py_iter v = Ok items -> (length items <= 30)%nat).
  { intros p v items N I. cbn in N. injection N as <-. cbn in I. injection I as <-.
    unfold sixty_repo_pages. destruct (Z.leb p 2); simpl; lia. }
  destruct (get_enhanced_github_data "octocat" sixty_repo_world init_state)
    as [s' [[| |u rs o]|e]] eqn:E; try (vm_compute in E; discriminate E).
  exists s', u, rs, o. split; [reflexivity|].
  exact (get_enhanced_github_data_at_most_79 _ _ _ _ _ _ _ Hp E).
Defined.

(** ** Further properties: the portfolio score *)

Lemma inject_Z_of_nat_S (n : nat) :
  inject_Z (Z.of_nat (S n)) == inject_Z (Z.of_nat n) + 1.
Proof. rewrite Nat2Z.inj_succ, <- Z.add_1_r, inject_Z_plus. reflexivity. Qed.

Lemma py_sum_field_bounds (key : string) (lo hi : Q) (items : list json) :
  Forall (fun r => exists d q, r = JObj d /\ assoc_get key d = Some (JNum q) /\
                               lo <= q <= hi) items ->
  forall acc t, py_sum_field key items acc = Ok t ->
  acc + inject_Z (Z.of_nat (length items)) * lo <= t /\
  t <= acc + inject_Z (Z.of_nat (length items)) * hi.
Proof.
  induction 1 as [|r rs (d & q & -> & Eq & Lq) F IH]; intros acc t H.
  - simpl in H. injection H as <-. cbn [length].
    change (inject_Z (Z.of_nat 0)) with 0. split; lra.
  - cbn [py_sum_field py_get] in H. rewrite Eq in H. cbn [res_bind py_num] in H.
    destruct (IH _ _ H) as [A B].
    cbn [length]. rewrite inject_Z_of_nat_S. split; nra.
Qed.

Lemma avg_bounds (t n lo hi : Q) :
  0 < n -> n * lo <= t -> t <= n * hi -> lo <= t / n <= hi.
Proof.
  intros P A B. split.
  - apply Qle_shift_div_l; [exact P|]. lra.
  - apply Qle_shift_div_r; [exact P|]. lra.
Qed.

Lemma enhanced_score (key : string) (lo hi : Q) (repos : list json)
  (Hk : forall d, enhanced_record d -> exists q, assoc_get key d = Some (JNum q) /\ lo <= q <= hi) :
  Forall enhanced repos ->
  Forall (fun r => exists d q, r = JObj d /\ assoc_get key d = Some (JNum q) /\
                               lo <= q <= hi) repos.
Proof.
  apply Forall_impl. intros [| | | | |d] E; try contradiction E.
  destruct (Hk d E) as (q & Eq & L). eauto.
Qed.

(** For a bundle returned by [get_enhanced_github_data], the three
    averaged dimensions computed by [calculate_portfolio_score] stay in
    the range of the per-repository scores: documentation and code quality
    in [0, 100], activity in [10, 100]. *)
Theorem fetched_bundle_average_dimensions (username : string) (w : World) (s s' : State)
  (user orgs : json) (repos : list json) (x : dims6)
  (H : get_enhanced_github_data username w s = (s', Ok (FBundle user repos orgs)))
  (Hx : portfolio_components (data_of (FBundle user repos orgs)) = Ok (Some x)) :
  0 <= doc_dim x <= 100 /\ 0 <= code_dim x <= 100 /\ 10 <= activity_dim x <= 100.
Proof.
  destruct (get_enhanced_github_data_bundle _ _ _ _ _ _ _ H)
    as (tok & s2 & s3 & raws & _ & _ & _ & _ & E & _ & _).
  pose proof (proj1 (proj2 (enhance_all_spec _ _ _ _ _ E))) as F.
  assert (FD := enhanced_score "doc_score" 0 100 repos
                  (fun d R => proj1 (proj2 (proj2 (proj2 R)))) F).
  assert (FC := enhanced_score "code_score" 0 100 repos
                  (fun d R => proj1 (proj2 (proj2 (proj2 (proj2 R))))) F).
  assert (FA := enhanced_score "activity_score" 10 100 repos
                  (fun d R => proj2 (proj2 (proj2 (proj2 (proj2 R))))) F).
  assert (Gr : py_get (data_of (FBundle user repos orgs)) "repos" (JArr []) = Ok (JArr repos))
    by reflexivity.
  assert (Go : py_get (data_of (FBundle user repos orgs)) "orgs" JNull = Ok orgs)
    by reflexivity.
  unfold portfolio_components in Hx. rewrite Gr, Go in Hx.
  cbn [data_of truthy negb orb length Nat.eqb] in Hx.
  destruct repos as [|r0 rs0]; [discriminate Hx|].
  cbn [truthy negb length Nat.eqb py_iter py_len res_bind] in Hx.
  repeat match type of Hx with
  | res_bind ?r _ = Ok _ =>
      let E := fresh "E" in destruct r eqn:E; [cbn [res_bind] in Hx | discriminate Hx]
  end.
  injection Hx as <-. cbn [doc_dim code_dim activity_dim].
  assert (P : 0 < inject_Z (Z.of_nat (length (r0 :: rs0)))) by (unfold Qlt; simpl; lia).
  cbn [length] in P.
  assert (Avg : forall key lo hi t,
            Forall (fun r => exists d q, r = JObj d /\ assoc_get key d = Some (JNum q) /\
                                         lo <= q <= hi) (r0 :: rs0) ->
            py_sum_field key (r0 :: rs0) 0 = Ok t ->
            lo <= t / inject_Z (Z.of_nat (S (length rs0))) <= hi).
  { intros key lo hi t Fk Et.
    destruct (py_sum_field_bounds _ _ _ _ Fk _ _ Et) as [A B]. cbn [length] in A, B.
    apply avg_bounds; [exact P | lra | lra]. }
  repeat match goal with
  | Et : py_sum_field ?k (r0 :: rs0) 0 = Ok ?t |- context [?t / _] =>
      let key := eval cbv in k in
      first [ constr_eq key "doc_score"; pose proof (Avg _ _ _ _ FD Et)
            | constr_eq key "code_score"; pose proof (Avg _ _ _ _ FC Et)
            | constr_eq key "activity_score"; pose proof (Avg _ _ _ _ FA Et) ];
      clear Et
  end.
  match goal with
  | A : 0 <= _ <= 100, B : 0 <= _ <= 100, C : 10 <= _ <= 100 |- _ => exact (conj A (conj B C))
  end.
Qed.

Lemma fetched_bundle_average_dimensions_witness :
  exists s' user repos orgs x,
    get_enhanced_github_data "octocat" one_repo_world init_state
    = (s', Ok (FBundle user repos orgs)) /\
    portfolio_components (data_of (FBundle user repos orgs)) = Ok (Some x) /\
    0 <= doc_dim x <= 100 /\ 0 <= code_dim x <= 100 /\ 10 <= activity_dim x <= 100.
Proof.
  destruct (get_enhanced_github_data "octocat" one_repo_world init_state)
    as [s' [[| |u rs o]|e]] eqn:E; try (vm_compute in E; discriminate E).
  destruct (portfolio_components (data_of (FBundle u rs o))) as [[x|]|e] eqn:E2;
    try (vm_compute in E; injection E as _ <- <- <-; vm_compute in E2; discriminate E2).
  exists s', u, rs, o, x. split; [reflexivity|]. split; [exact E2|].
  exact (fetched_bundle_average_dimensions _ _ _ _ _ _ _ _ E E2).
Defined.

(** ** Further properties: GitHub timestamps *)

Lemma match_alt_app (a : list cls) (l rest : list ascii) :
  (length a <= length l)%nat ->
  match_alt a (l ++ rest)
  = match match_alt a l with Some (m, r) => Some (m, (r ++ rest)%list) | None => None end.
Proof.
  revert l. induction a as [|p a IH]; intros l Hl.
  - reflexivity.
  - destruct l as [|c l]; [cbn in Hl; lia|].
    cbn [app match_alt]. destruct (p c); [|reflexivity].
    rewrite IH by (cbn in Hl; lia).
    destruct (match_alt a l) as [[m r]|]; reflexivity.
Qed.

Lemma match_alt_split (a : list cls) (s m r : list ascii) :
  match_alt a s = Some (m, r) -> s = (m ++ r)%list.
Proof.
  revert s m r. induction a as [|p a IH]; intros s m r H.
  - cbn in H. injection H as <- <-. reflexivity.
  - destruct s as [|c s]; [discriminate|]. cbn in H.
    destruct (p c); [|discriminate].
    destruct (match_alt a s) as [[m' r']|] eqn:E; [|discriminate].
    injection H as <- <-. cbn. f_equal. exact (IH _ _ _ E).
Qed.

(** A group whose first matching alternative takes the whole of [l]
    contributes [l] as its capture to the first match. *)
Lemma match_pieces_grp_head (alts : list (list cls)) (ps : list piece)
    (l rest : list ascii) caps r t :
  Forall (fun a => (length a <= length l)%nat) alts ->
  first_match_len alts l = Some (length l) ->
  match_pieces ps rest = (caps, r) :: t ->
  exists t', match_pieces (PGrp alts :: ps) (l ++ rest) = (l :: caps, r) :: t'.
Proof.
  intros Hlen Hfirst Hps. induction alts as [|a alts IH]; [discriminate|].
  inversion Hlen as [|? ? Ha Hlen']; subst.
  cbn [match_pieces flat_map]. rewrite (match_alt_app _ _ _ Ha).
  cbn [first_match_len] in Hfirst.
  destruct (match_alt a l) as [[m r0]|] eqn:Ea.
  - injection Hfirst as Hm.
    pose proof (match_alt_split _ _ _ _ Ea) as Hs.
    assert (r0 = []) as ->.
    { destruct r0 as [|x r0]; [reflexivity|].
      apply (f_equal (@length ascii)) in Hs. rewrite length_app in Hs. cbn in Hs. lia. }
    rewrite app_nil_r in Hs. subst m. cbn [app]. rewrite Hps. cbn.
    eexists. reflexivity.
  - exact (IH Hlen' Hfirst).
Qed.

Lemma match_pieces_lit (c : ascii) (ps : list piece) (s : list ascii) :
  match_pieces (PLit c :: ps) (c :: s) = match_pieces ps s.
Proof. cbn. rewrite Ascii.eqb_refl. reflexivity. Qed.

Lemma forall_range (P : Z -> bool) (lo hi : Z) :
  forallb P (map (fun i => (lo + Z.of_nat i)%Z) (seq 0 (Z.to_nat (hi - lo + 1)))) = true ->
  forall z, (lo <= z <= hi)%Z -> P z = true.
Proof.
  intros H z Hz. rewrite forallb_forall in H.
  replace z with (lo + Z.of_nat (Z.to_nat (z - lo)))%Z by lia.
  apply H. apply (in_map (fun i => (lo + Z.of_nat i)%Z)). apply in_seq. lia.
Qed.

Lemma field_check_spec alts dig z :
  field_check alts dig z = true ->
  first_match_len alts (dig z) = Some (length (dig z)) /\ int_of_digits (dig z) = z.
Proof.
  unfold field_check. intro H. apply andb_prop in H as [H1 H2].
  destruct (first_match_len alts (dig z)) as [k|]; [|discriminate].
  apply Nat.eqb_eq in H1. apply Z.eqb_eq in H2. subst k. auto.
Qed.

Lemma year_field (y : Z) : (1 <= y <= 9999)%Z -> field_check (group_alts grp_Y) digits4 y = true.
Proof. apply (forall_range _ 1 9999). vm_compute. reflexivity. Qed.

Lemma month_field (m : Z) : (1 <= m <= 12)%Z -> field_check (group_alts grp_m) digits2 m = true.
Proof. apply (forall_range _ 1 12). vm_compute. reflexivity. Qed.

Lemma day_field (d : Z) : (1 <= d <= 31)%Z -> field_check (group_alts grp_d) digits2 d = true.
Proof. apply (forall_range _ 1 31). vm_compute. reflexivity. Qed.

Lemma hour_field (h : Z) : (0 <= h <= 23)%Z -> field_check (group_alts grp_H) digits2 h = true.
Proof. apply (forall_range _ 0 23). vm_compute. reflexivity. Qed.

Lemma minute_field (mi : Z) : (0 <= mi <= 59)%Z -> field_check (group_alts grp_M) digits2 mi = true.
Proof. apply (forall_range _ 0 59). vm_compute. reflexivity. Qed.

Lemma second_field (ss : Z) : (0 <= ss <= 59)%Z -> field_check (group_alts grp_S) digits2 ss = true.
Proof. apply (forall_range _ 0 59). vm_compute. reflexivity. Qed.

Lemma days_in_month_le_31 (y m : Z) : (days_in_month y m <= 31)%Z.
Proof. unfold days_in_month. repeat destruct (_ : bool); lia. Qed.

(** Capture step for a group followed by the rest of the format. *)
Lemma grp_step (p : piece) (dig : Z -> list ascii) (z : Z) ps rest caps r t :
  field_check (group_alts p) dig z = true ->
  p = PGrp (group_alts p) ->
  Forall (fun a => (length a <= length (dig z))%nat) (group_alts p) ->
  match_pieces ps rest = (caps, r) :: t ->
  exists t', match_pieces (p :: ps) (dig z ++ rest) = (dig z :: caps, r) :: t'.
Proof.
  intros Hf Hp Hl Hps. apply field_check_spec in Hf as [Hf _].
  rewrite Hp. exact (match_pieces_grp_head _ _ _ _ _ _ _ Hl Hf Hps).
Qed.

(** [datetime.strptime] reads back what the GitHub timestamp format
    writes: for valid calendar fields, the zero-padded text
    [YYYY-MM-DDTHH:MM:SSZ] parses to the datetime of those fields. *)
Theorem strptime_github_timestamp_round_trip (y m d hh mi ss : Z)
  (Hv : valid_fields y m d hh mi ss) :
  strptime_github (JStr (github_timestamp y m d hh mi ss))
  = Ok (toordinal y m d * usec_per_day + ((hh * 60 + mi) * 60 + ss) * 1000000)%Z.
Proof.
  destruct Hv as (Hy & Hm & Hd & Hh & Hmi & Hs).
  pose proof (days_in_month_le_31 y m).
  pose proof (year_field y Hy) as Fy. pose proof (month_field m Hm) as Fm.
  pose proof (day_field d ltac:(lia)) as Fd. pose proof (hour_field hh Hh) as Fh.
  pose proof (minute_field mi Hmi) as Fmi. pose proof (second_field ss Hs) as Fs.
  assert (L2 : forall p z, Forall (fun a => (length a <= 2)%nat) (group_alts p) ->
                 Forall (fun a => (length a <= length (digits2 z))%nat) (group_alts p))
    by (intros; assumption).
  edestruct (grp_step grp_S digits2 ss [PLit "Z"] ["Z"%char] [] [] [] Fs eq_refl)
    as [t6 E6]; [apply L2; repeat constructor; cbn; lia | reflexivity |].
  rewrite <- match_pieces_lit with (c := ":"%char) in E6.
  destruct (grp_step grp_M digits2 mi _ _ _ _ _ Fmi eq_refl
    (L2 grp_M mi ltac:(repeat constructor; cbn; lia)) E6) as [t5 E5].
  rewrite <- match_pieces_lit with (c := ":"%char) in E5.
  destruct (grp_step grp_H digits2 hh _ _ _ _ _ Fh eq_refl
    (L2 grp_H hh ltac:(repeat constructor; cbn; lia)) E5) as [t4 E4].
  rewrite <- match_pieces_lit with (c := "T"%char) in E4.
  destruct (grp_step grp_d digits2 d _ _ _ _ _ Fd eq_refl
    (L2 grp_d d ltac:(repeat constructor; cbn; lia)) E4) as [t3 E3].
  rewrite <- match_pieces_lit with (c := "-"%char) in E3.
  destruct (grp_step grp_m digits2 m _ _ _ _ _ Fm eq_refl
    (L2 grp_m m ltac:(repeat constructor; cbn; lia)) E3) as [t2 E2].
  rewrite <- match_pieces_lit with (c := "-"%char) in E2.
  destruct (grp_step grp_Y digits4 y _ _ _ _ _ Fy eq_refl
    ltac:(repeat constructor; cbn; lia) E2) as [t1 E1].
  unfold strptime_github, strptime_parts, github_timestamp.
  rewrite list_ascii_of_string_of_list_ascii.
  unfold pushed_at_format. rewrite E1. cbn [map res_bind].
  apply field_check_spec in Fy as [_ ->]. apply field_check_spec in Fm as [_ ->].
  apply field_check_spec in Fd as [_ ->]. apply field_check_spec in Fh as [_ ->].
  apply field_check_spec in Fmi as [_ ->]. apply field_check_spec in Fs as [_ ->].
  unfold mk_datetime.
  replace (Z.leb 1 y && Z.leb 1 m && Z.leb m 12 && Z.leb 1 d
      && Z.leb d (days_in_month y m) && Z.leb hh 23 && Z.leb mi 59
      && Z.leb ss 59)%bool with true; [reflexivity|].
  symmetry. repeat (apply andb_true_intro; split); apply Z.leb_le; lia.
Qed.

Lemma strptime_github_timestamp_round_trip_witness :
  valid_fields 2024 2 29 23 59 59 /\
  strptime_github (JStr (github_timestamp 2024 2 29 23 59 59))
  = Ok (toordinal 2024 2 29 * usec_per_day + ((23 * 60 + 59) * 60 + 59) * 1000000)%Z.
Proof.
  assert (H : valid_fields 2024 2 29 23 59 59)
    by (unfold valid_fields; vm_compute; repeat split; discriminate).
  split; [exact H|].
  exact (strptime_github_timestamp_round_trip _ _ _ _ _ _ H).
Defined.

(** ** Further properties: scores, languages and the dashboard *)

(** [calculate_documentation_score] on a dict is the plain sum of its
    shares (40 README, 20 description, 10 homepage, 15 wiki, 15 pages):
    they total 100, so [min(score, 100)] never changes it; on anything
    that is not a dict, [repo.get] raises [AttributeError]. *)
Theorem calculate_documentation_score_sum (repo : json) :
  match repo with
  | JObj d =>
      exists p, calculate_documentation_score repo = Ok p /\
      p == share (truthy (get_default d "readme_exists" (JBool false))) 40
           + share (truthy (get_default d "description" JNull)) 20
           + share (truthy (get_default d "homepage" JNull)) 10
           + share (truthy (get_default d "has_wiki" JNull)) 15
           + share (truthy (get_default d "has_pages" JNull)) 15
  | _ => calculate_documentation_score repo = Exc AttributeError
  end.
Proof.
  destruct repo as [| | | | |d]; try reflexivity.
  destruct (calculate_documentation_score_obj d) as [p [E P]].
  exists p. split; [exact E|]. rewrite P. unfold doc_points, share.
  destruct (truthy _), (truthy _), (truthy _), (truthy _), (truthy _);
    vm_compute; reflexivity.
Qed.

(** The two sentinel strings, and a bundle without repositories, score
    [(0, {})]. *)
Theorem calculate_portfolio_score_zero_cases :
  calculate_portfolio_score (data_of FNoToken) = Ok (0, []) /\
  calculate_portfolio_score (data_of FError) = Ok (0, []) /\
  (forall user orgs, calculate_portfolio_score (data_of (FBundle user [] orgs)) = Ok (0, [])).
Proof.
  split; [reflexivity|]. split; [reflexivity|]. intros. reflexivity.
Qed.

Lemma portfolio_score_shape (data : json) (ps : Q) (ds : list (string * Q)) :
  calculate_portfolio_score data = Ok (ps, ds) ->
  (portfolio_components data = Ok None /\ ps = 0 /\ ds = []) \/
  (exists x, portfolio_components data = Ok (Some x) /\
             ps = round1 (portfolio_final x) /\ ds = dimension_scores_of x).
Proof.
  unfold calculate_portfolio_score.
  destruct (portfolio_components data) as [[x|]|e]; cbn [res_bind]; intro H;
    try discriminate H; injection H as <- <-; eauto.
Qed.

(** The dimension map of [calculate_portfolio_score] is either empty
    (with score 0) or has exactly the six dimension names, in the order
    of the dict literal. *)
Theorem calculate_portfolio_score_keys (data : json) (ps : Q) (ds : list (string * Q))
  (H : calculate_portfolio_score data = Ok (ps, ds)) :
  (ds = [] /\ ps = 0) \/
  map fst ds = ["Documentation Quality"; "Code Structure & Best Practices";
                "Activity Consistency"; "Repository Organization";
                "Project Impact"; "Technical Depth"].
Proof.
  destruct (portfolio_score_shape _ _ _ H) as [(_ & -> & ->)|(x & _ & _ & ->)];
    [left; auto | right; reflexivity].
Qed.

Lemma calculate_portfolio_score_keys_witness :
  exists ps ds, calculate_portfolio_score sample_data = Ok (ps, ds) /\
  ((ds = [] /\ ps = 0) \/
   map fst ds = ["Documentation Quality"; "Code Structure & Best Practices";
                 "Activity Consistency"; "Repository Organization";
                 "Project Impact"; "Technical Depth"]).
Proof.
  destruct (calculate_portfolio_score sample_data) as [[ps ds]|e] eqn:E;
    [|vm_compute in E; discriminate E].
  exists ps, ds. split; [reflexivity|].
  exact (calculate_portfolio_score_keys _ _ _ E).
Defined.

Lemma round1_le (q : Q) (hi : Z) : q <= inject_Z hi -> round1 q <= inject_Z hi.
Proof.
  intro H. unfold round1.
  assert (B : (round_half_even (q * 10) <= 10 * hi)%Z).
  { apply round_half_even_le. rewrite inject_Z_mult.
    replace (inject_Z 10) with (10 # 1) by reflexivity. lra. }
  unfold Qle; simpl; lia.
Qed.

Lemma portfolio_components_impact (data : json) (x : dims6) :
  portfolio_components data = Ok (Some x) -> impact_dim x <= 100.
Proof.
  unfold portfolio_components. intro H.
  destruct (_ || _)%bool; [discriminate H|].
  ok_chain H; try discriminate H.
  simpl. apply py_min_le_l.
Qed.

(** The Project Impact value of the dimension map never exceeds 100:
    [min(100, ...)] caps it before rounding, whatever the star and fork
    counts. *)
Theorem calculate_portfolio_score_impact_le_100 (data : json) (ps q : Q)
  (ds : list (string * Q))
  (H : calculate_portfolio_score data = Ok (ps, ds))
  (Hq : dim_lookup ds "Project Impact" = Ok q) :
  q <= 100.
Proof.
  destruct (portfolio_score_shape _ _ _ H) as [(_ & _ & ->)|(x & Ex & _ & ->)];
    [discriminate Hq|].
  assert (L : dim_lookup (dimension_scores_of x) "Project Impact"
              = Ok (round1 (impact_dim x))) by reflexivity.
  rewrite L in Hq. injection Hq as <-.
  apply (round1_le _ 100). exact (portfolio_components_impact _ _ Ex).
Qed.

Lemma calculate_portfolio_score_impact_le_100_witness :
  exists ps ds q, calculate_portfolio_score sample_data = Ok (ps, ds) /\
    dim_lookup ds "Project Impact" = Ok q /\ q <= 100.
Proof.
  destruct (calculate_portfolio_score sample_data) as [[ps ds]|e] eqn:E;
    [|vm_compute in E; discriminate E].
  destruct (dim_lookup ds "Project Impact") as [q|e] eqn:E2;
    [|vm_compute in E; injection E as _ <-; vm_compute in E2; discriminate E2].
  exists ps, ds, q. split; [reflexivity|]. split; [exact E2|].
  exact (calculate_portfolio_score_impact_le_100 _ _ _ _ E E2).
Defined.

Lemma existsb_eqb_in (k : string) (l : list string) :
  existsb (String.eqb k) l = true <-> In k l.
Proof.
  rewrite existsb_exists. split.
  - intros (k' & I & E). apply String.eqb_eq in E. subst. exact I.
  - intro I. exists k. split; [exact I | apply String.eqb_refl].
Qed.

(** One [languages.update(keys)] on a duplicate-free list: it stays
    duplicate-free, keeps its elements in front, and gains the keys. *)
Lemma set_update_spec (f : list string -> string * json -> list string)
    (Hf : forall acc k v, f acc (k, v)
          = if existsb (String.eqb k) acc then acc else (acc ++ [k])%list)
    (d : list (string * json)) (acc : list string) :
  NoDup acc ->
  NoDup (fold_left f d acc) /\
  (exists sfx, fold_left f d acc = (acc ++ sfx)%list) /\
  (forall k, In k (fold_left f d acc) <-> In k acc \/ In k (map fst d)).
Proof.
  revert acc. induction d as [|[k v] d IH]; intros acc Hn.
  - cbn. split; [exact Hn|]. split; [exists []; symmetry; apply app_nil_r|]. tauto.
  - cbn [fold_left]. rewrite Hf.
    destruct (existsb (String.eqb k) acc) eqn:E.
    + apply existsb_eqb_in in E.
      destruct (IH acc Hn) as (N & (sfx & P) & M).
      split; [exact N|]. split; [exists sfx; exact P|].
      intro k'. rewrite M. cbn. split; [tauto|].
      intros [I|[<-|I]]; auto.
    + assert (N0 : NoDup (acc ++ [k])%list).
      { apply NoDup_app; [exact Hn | constructor; [intros []|constructor] |].
        intros x Ix [<-|[]]. apply Bool.not_true_iff_false in E.
        apply E. apply existsb_eqb_in. exact Ix. }
      destruct (IH _ N0) as (N & (sfx & P) & M).
      split; [exact N|]. split; [exists (k :: sfx); rewrite P, <- app_assoc; reflexivity|].
      intro k'. rewrite M, in_app_iff. cbn. tauto.
Qed.

(** The language set of [calculate_portfolio_score]: the list it counts
    has no duplicates and holds exactly the keys of the [languages] dicts
    of the repositories, in first-seen order after the initial ones. *)
Lemma collect_languages_spec (items : list json) (acc langs : list string) :
  collect_languages items acc = Ok langs -> NoDup acc ->
  NoDup langs /\ (exists sfx, langs = (acc ++ sfx)%list) /\
  (forall k, In k langs <-> In k acc \/
     exists r d, In r items /\ py_get r "languages" (JObj []) = Ok (JObj d) /\
                 In k (map fst d)).
Proof.
  revert acc. induction items as [|r rs IH]; intros acc H Hn.
  - cbn in H. injection H as <-. split; [exact Hn|].
    split; [exists []; symmetry; apply app_nil_r|].
    intro k. split; [tauto|]. intros [I|(r & d & [] & _)]. exact I.
  - cbn [collect_languages] in H.
    destruct (py_get r "languages" (JObj [])) as [l|e] eqn:Eg; cbn [res_bind] in H;
      [|discriminate H].
    destruct l as [| | | | |d]; try discriminate H.
    match type of H with
    | collect_languages _ (fold_left ?f _ _) = _ =>
        destruct (set_update_spec f (fun _ _ _ => eq_refl) d acc Hn) as (N & (s1 & P1) & M1)
    end.
    destruct (IH _ H N) as (N' & (s2 & P2) & M2).
    split; [exact N'|]. split; [exists (s1 ++ s2)%list; rewrite P2, P1, app_assoc; reflexivity|].
    intro k. rewrite M2, M1. split.
    + intros [[I|I]|(r' & d' & I' & G & K)]; [left; exact I| |].
      * right. exists r, d. split; [left; reflexivity|]. split; [exact Eg|exact I].
      * right. exists r', d'. split; [right; exact I'|]. split; [exact G|exact K].
    + intros [I|(r' & d' & [<-|I'] & G & K)]; [left; left; exact I| |].
      * rewrite Eg in G. injection G as <-. left; right; exact K.
      * right. exists r', d'. auto.
Qed.

(** The Technical Depth language count: the languages [set] of
    [calculate_portfolio_score] is a duplicate-free list whose members
    are exactly the keys of the repositories' [languages] dicts. *)
Theorem collect_languages_distinct_keys (items : list json) (langs : list string)
  (H : collect_languages items [] = Ok langs) :
  NoDup langs /\
  (forall k, In k langs <->
     exists r d, In r items /\ py_get r "languages" (JObj []) = Ok (JObj d) /\
                 In k (map fst d)).
Proof.
  destruct (collect_languages_spec _ _ _ H (NoDup_nil _)) as (N & _ & M).
  split; [exact N|]. intro k. rewrite M. split; [intros [[]|X]; exact X | auto].
Qed.

Lemma collect_languages_distinct_keys_witness :
  collect_languages [JObj [("languages", JObj [("Python", JNum 10); ("C", JNum 2)])];
                     JObj [("languages", JObj [("C", JNum 7); ("Rust", JNum 1)])]] []
  = Ok ["Python"; "C"; "Rust"] /\
  NoDup ["Python"; "C"; "Rust"] /\
  (forall k, In k ["Python"; "C"; "Rust"] <->
     exists r d, In r [JObj [("languages", JObj [("Python", JNum 10); ("C", JNum 2)])];
                      JObj [("languages", JObj [("C", JNum 7); ("Rust", JNum 1)])]] /\
                 py_get r "languages" (JObj []) = Ok (JObj d) /\ In k (map fst d)).
Proof.
  assert (E : collect_languages [JObj [("languages", JObj [("Python", JNum 10); ("C", JNum 2)])];
                     JObj [("languages", JObj [("C", JNum 7); ("Rust", JNum 1)])]] []
              = Ok ["Python"; "C"; "Rust"]) by (vm_compute; reflexivity).
  split; [exact E|]. exact (collect_languages_distinct_keys _ _ E).
Defined.

(** The dashboard on a user without public repositories: the repository
    pages come back empty, [calculate_portfolio_score] returns
    [(0, {})], and [get_actionable_recommendations] then raises
    [KeyError] on [dimension_scores['Documentation Quality']]; so the
    analysis step never completes, whichever model and reply. *)
Theorem dashboard_analysis_no_repos_fails (user orgs : json) (model : option string)
    (reply : gen_reply) :
  (forall v, dashboard_analysis (data_of (FBundle user [] orgs)) model reply <> Ok v) /\
  dashboard_analysis (data_of (FBundle user [] orgs)) None reply = Exc KeyError.
Proof.
  split; [|reflexivity].
  intro v. unfold dashboard_analysis.
  change (calculate_portfolio_score (data_of (FBundle user [] orgs))) with
    (@Ok (Q * list (string * Q)) (0, [])).
  cbn [res_bind].
  destruct (analyze_with_ai _ _ _); cbn [res_bind]; discriminate.
Qed.

(** ** Further properties: the AI adapter's text handling *)

(** Without a usable [GEMINI_KEY], the model [get_working_model] hands to
    [analyze_with_ai] is [None], and the assessment is [None] whatever
    the data and the reply: the prompt is not even built. *)
Theorem analyze_with_ai_without_gemini_key (data : json) (l : model_listing)
    (reply : gen_reply) (key : option string) :
  (key = None \/ key = Some EmptyString) ->
  analyze_with_ai data (get_working_model key l) reply = Ok None.
Proof. intros [-> | ->]; reflexivity. Qed.

Lemma analyze_with_ai_without_gemini_key_witness :
  (@None string = None \/ @None string = Some EmptyString) /\
  analyze_with_ai (JStr "ERROR") (get_working_model None {| listed := []; listing_raises := true |})
    (GenText "{}") = Ok None.
Proof.
  assert (H : @None string = None \/ @None string = Some EmptyString) by (left; reflexivity).
  split; [exact H|].
  exact (analyze_with_ai_without_gemini_key _ _ _ _ H).
Defined.







